(** * rm_auto_aim / armor_detector: the detector node and the depth processor

    A shallow embedding of
      - [src/rm_auto_aim/armor_detector/src/base_detector_node.cpp]
        ([BaseDetectorNode::detectArmors], [drawResults], [publishMarkers]);
      - [src/rm_auto_aim/armor_detector/include/armor_detector/depth_processor.hpp]
        (the interface of [DepthProcessor]).

    C++ [double] values are IEEE 754 binary64 numbers, embedded with the
    executable specification of [SpecFloat].  The node is a state
    transformer over the members of [BaseDetectorNode]; what it reads from
    and sends to the ROS runtime is recorded as a trace of events. *)

From Stdlib Require Import ZArith List Bool String Lia.
From Stdlib Require Import Sorting.Sorted Sorting.Permutation.
From Stdlib Require Import Floats.SpecFloat.
Import ListNotations.

Set Implicit Arguments.
Open Scope Z_scope.

(* ================================================================== *)
(** * Binary64 arithmetic ([double]) *)
(* ================================================================== *)

Module Double.

(** A C++ [double]: [prec = 53], [emax = 1024]. *)
Definition double := spec_float.

Definition prec : Z := 53.
Definition emax : Z := 1024.

Definition add : double -> double -> double := SFadd prec emax.
Definition sub : double -> double -> double := SFsub prec emax.
Definition mul : double -> double -> double := SFmul prec emax.
Definition div : double -> double -> double := SFdiv prec emax.
Definition sqrt : double -> double := SFsqrt prec emax.

Definition eqb : double -> double -> bool := SFeqb.
Definition ltb : double -> double -> bool := SFltb.
Definition leb : double -> double -> bool := SFleb.

(** The integer [z] as a double (exact below 2^53). *)
Definition of_Z (z : Z) : double := binary_normalize prec emax z 0 false.

Definition zero : double := S754_zero false.

Definition is_nan (d : double) : bool :=
  match d with S754_nan => true | _ => false end.

Definition is_zero (d : double) : bool := eqb d zero.

Definition is_negative (d : double) : bool := ltb d zero.

Definition is_finite (d : double) : bool :=
  match d with
  | S754_zero _ | S754_finite _ _ _ => true
  | S754_infinity _ | S754_nan => false
  end.

(** [cvRound]: the nearest integer, ties to even; nothing for an
    infinity or a NaN. *)
Definition round (d : double) : option Z :=
  match d with
  | S754_zero _ => Some 0
  | S754_finite s m e =>
      let a :=
        if 0 <=? e then Z.pos m * 2 ^ e
        else
          let p := 2 ^ (- e) in
          let q := Z.pos m / p in
          let r := Z.pos m mod p in
          match 2 * r ?= p with
          | Lt => q
          | Gt => q + 1
          | Eq => if Z.even q then q else q + 1
          end in
      Some (if s then - a else a)
  | S754_infinity _ | S754_nan => None
  end.

(** The literals of the specification's examples. *)
Definition d2_0 : double := S754_finite false 4503599627370496 (-51).
Definition d0_4 : double := S754_finite false 7205759403792794 (-54).

End Double.

Import Double.

(* ================================================================== *)
(** * Binary32 values ([float]) *)
(* ================================================================== *)

Module Single.

(** A C++ [float]: [prec = 24], [emax = 128]. *)
Definition float := spec_float.

Definition prec : Z := 24.
Definition emax : Z := 128.

(** The conversion of a [double] to [float]: the nearest binary32 value,
    ties to even; too large a value becomes an infinity, too small a
    one a subnormal or a zero. *)
Definition of_double (d : double) : float :=
  match d with
  | S754_finite s m e => binary_round prec emax s m e
  | S754_zero _ | S754_infinity _ | S754_nan => d
  end.

End Single.

(** Results of fallible operations. *)
Inductive result (E A : Type) : Type :=
| Ok (a : A)
| Err (e : E).
Arguments Ok {E A} a.
Arguments Err {E A} e.

(* ================================================================== *)
(** * OpenCV and message data handled by the node *)
(* ================================================================== *)

(** [cv::Point2f]; a coordinate is carried as the double it is promoted to
    in arithmetic with the [double] intrinsics. *)
Record Point2f : Type := { pt_x : double; pt_y : double }.

(** [geometry_msgs::msg::Point]. *)
Module Point.
Record t : Type := { x : double; y : double; z : double }.
End Point.

(** [cv::Size(width, height)]. *)
Record Size : Type := { width : Z; height : Z }.

(** An 8-bit [cv::Mat] (colour, binary or number image): interleaved
    channels, row-major. *)
Record Mat : Type := { rows : Z; cols : Z; channels : Z; data : list Z }.

Definition mat_size (m : Mat) : Size := {| width := cols m; height := rows m |}.

(** A depth image: a [cv::Mat] of one range value per pixel, row-major. *)
Record DepthImage : Type :=
  { depth_rows : Z; depth_cols : Z; depth_data : list double }.

(* ================================================================== *)
(** * DepthProcessor *)
(* ================================================================== *)

Module DepthProcessor.

(** The private members of [class DepthProcessor]. *)
Record t : Type := { fx_ : double; fy_ : double; cx_ : double; cy_ : double }.

Inductive Error : Type := InvalidDepth.

(** Modelled from the spec: the nearest-pixel lookup of the depth map
    inside [getPosition], whose body is not part of the sources.  A
    point outside the map has no sample. *)
Definition sample (depth_image : DepthImage) (image_point : Point2f)
  : option double :=
  match round (pt_x image_point), round (pt_y image_point) with
  | Some u, Some v =>
      if (0 <=? u) && (u <? depth_cols depth_image)
         && (0 <=? v) && (v <? depth_rows depth_image)
      then nth_error (depth_data depth_image)
                     (Z.to_nat (v * depth_cols depth_image + u))
      else None
  | _, _ => None
  end.

(** Modelled from the spec: a depth that is zero, negative or not a
    number is invalid. *)
Definition invalid_depth (d : double) : bool :=
  is_zero d || is_negative d || is_nan d.

(** Modelled from the spec: [DepthProcessor::getPosition], declared in
    depth_processor.hpp, defined outside the sources.  Pinhole inverse
    projection [X = (u - cx) * d / fx], [Y = (v - cy) * d / fy],
    [Z = d]; an invalid or missing depth fails with [InvalidDepth]. *)
Definition getPosition (dp : t) (depth_image : DepthImage)
           (image_point : Point2f) : result Error Point.t :=
  match sample depth_image image_point with
  | None => Err InvalidDepth
  | Some d =>
      if invalid_depth d then Err InvalidDepth
      else Ok {| Point.x :=
                   div (mul (sub (pt_x image_point) (cx_ dp)) d) (fx_ dp);
                 Point.y :=
                   div (mul (sub (pt_y image_point) (cy_ dp)) d) (fy_ dp);
                 Point.z := d |}
  end.

(** Modelled from the spec: [DepthProcessor::calculateDistanceToCenter],
    declared in depth_processor.hpp, defined outside the sources.  The
    Euclidean pixel distance between the point and the optical centre
    [(cx, cy)], computed on the [double] intrinsics and returned as the
    [float] the declaration gives. *)
Definition calculateDistanceToCenter (dp : t) (image_point : Point2f)
  : Single.float :=
  let dx := sub (pt_x image_point) (cx_ dp) in
  let dy := sub (pt_y image_point) (cy_ dp) in
  Single.of_double (sqrt (add (mul dx dx) (mul dy dy))).

End DepthProcessor.

Definition K500 : DepthProcessor.t :=
  {| DepthProcessor.fx_ := of_Z 500; DepthProcessor.fy_ := of_Z 500;
     DepthProcessor.cx_ := zero; DepthProcessor.cy_ := zero |}.

Definition flat_depth (r c : Z) (d : double) : DepthImage :=
  {| depth_rows := r; depth_cols := c;
     depth_data := repeat d (Z.to_nat (r * c)) |}.


(* ================================================================== *)
(** * Lights, armors and messages *)
(* ================================================================== *)

(** Colours: the parameter description reads [0-RED, 1-BLUE]. *)
Definition RED : Z := 0.
Definition BLUE : Z := 1.

(** [struct Light : cv::RotatedRect] (armor.hpp is outside the sources):
    the members the node and the specification's data model use. *)
Module Light.
Record t : Type :=
  { color : Z;
    top : Point2f;
    bottom : Point2f;
    center : Point2f;
    length : double;
    width : double;
    tilt_angle : double }.
End Light.

Inductive ArmorType : Type := SMALL | LARGE | INVALID.

(** [struct Armor]. *)
Module Armor.
Record t : Type :=
  { left_light : Light.t;
    right_light : Light.t;
    center : Point2f;
    type : ArmorType;
    number_img : Mat;
    number : string;
    confidence : double;
    classfication_result : string }.

Definition set_number_img (a : t) (m : Mat) : t :=
  {| left_light := left_light a; right_light := right_light a;
     center := center a; type := type a; number_img := m;
     number := number a; confidence := confidence a;
     classfication_result := classfication_result a |}.
End Armor.

(** [auto_aim_interfaces::msg::DebugLight] and [DebugArmor]: the pixel
    column of the centre, which the node sorts on, and the measurements
    the detector reports next to it. *)
Record DebugLight : Type :=
  { dl_center_x : Z; dl_measurements : list double }.
Record DebugArmor : Type :=
  { da_center_x : Z; da_measurements : list double }.

Record Header : Type := { stamp : Z; frame_id : string }.

(** [sensor_msgs::msg::Image]. *)
Record ImageMsg : Type :=
  { header : Header;
    img_height : Z;
    img_width : Z;
    encoding : string;
    img_data : list Z }.

(** [auto_aim_interfaces::msg::Armor] and [Armors]. *)
Record ArmorMsg : Type :=
  { msg_number : string;
    msg_position : Point.t;
    msg_distance_to_image_center : double }.
Record ArmorsMsg : Type :=
  { armors_header : Header; armors : list ArmorMsg }.

(** [visualization_msgs::msg::Marker]. *)
Module Marker.
Inductive Action : Type := ADD | MODIFY | DELETE | DELETEALL.
Inductive Type_ : Type := SPHERE_LIST | TEXT_VIEW_FACING.
Record t : Type :=
  { ns : string;
    type : Type_;
    action : Action;
    points : list Point.t;
    text : string }.
Definition set_action (m : t) (a : Action) : t :=
  {| ns := ns m; type := type m; action := a;
     points := points m; text := text m |}.
End Marker.

(* ================================================================== *)
(** * std::sort *)
(* ================================================================== *)

Section StdSort.
Variable A : Type.
(** The comparator [comp(a, b)]: [a] goes before [b]. *)
Variable comp : A -> A -> bool.

Fixpoint sort_insert (a : A) (l : list A) : list A :=
  match l with
  | [] => [a]
  | b :: l' => if comp b a then b :: sort_insert a l' else a :: l
  end.

(** [std::sort(first, last, comp)].  The standard leaves the order of
    equivalent elements open; the theorems below rely on the result
    being an ordered rearrangement only. *)
Definition std_sort (l : list A) : list A := fold_right sort_insert [] l.
End StdSort.

(* ================================================================== *)
(** * The members of the node *)
(* ================================================================== *)

Record LightParams : Type :=
  { lp_min_ratio : double; lp_max_ratio : double; lp_max_angle : double }.

Record ArmorParams : Type :=
  { min_light_ratio : double;
    min_small_center_distance : double;
    max_small_center_distance : double;
    min_large_center_distance : double;
    max_large_center_distance : double;
    max_angle : double }.

(** [class Detector]: the members the node reads and writes, and the
    parameters handed to its constructor by [initDetector]. *)
Module Detector.
Record t : Type :=
  { min_lightness : Z;
    detect_color : Z;
    l : LightParams;
    a : ArmorParams;
    debug_lights : list DebugLight;
    debug_armors : list DebugArmor }.

Definition set_min_lightness (d : t) (v : Z) : t :=
  {| min_lightness := v; detect_color := detect_color d; l := l d;
     a := a d; debug_lights := debug_lights d;
     debug_armors := debug_armors d |}.
Definition set_detect_color (d : t) (v : Z) : t :=
  {| min_lightness := min_lightness d; detect_color := v; l := l d;
     a := a d; debug_lights := debug_lights d;
     debug_armors := debug_armors d |}.
Definition set_debug_lights (d : t) (v : list DebugLight) : t :=
  {| min_lightness := min_lightness d; detect_color := detect_color d;
     l := l d; a := a d; debug_lights := v;
     debug_armors := debug_armors d |}.
Definition set_debug_armors (d : t) (v : list DebugArmor) : t :=
  {| min_lightness := min_lightness d; detect_color := detect_color d;
     l := l d; a := a d; debug_lights := debug_lights d;
     debug_armors := v |}.
End Detector.

(** [class NumberClassifier]. *)
Module NumberClassifier.
Record t : Type :=
  { threshold : double; model_path : string; label_path : string }.
Definition set_threshold (c : t) (v : double) : t :=
  {| threshold := v; model_path := model_path c;
     label_path := label_path c |}.
End NumberClassifier.

(** [class BaseDetectorNode]. *)
Module Node.
Record t : Type :=
  { detector_ : Detector.t;
    classifier_ : NumberClassifier.t;
    debug_ : bool;
    armors_msg_ : ArmorsMsg;
    position_marker_ : Marker.t;
    text_marker_ : Marker.t;
    marker_array_ : list Marker.t;
    cam_center_ : Point2f }.

Definition set_detector (n : t) (d : Detector.t) : t :=
  {| detector_ := d; classifier_ := classifier_ n; debug_ := debug_ n;
     armors_msg_ := armors_msg_ n; position_marker_ := position_marker_ n;
     text_marker_ := text_marker_ n; marker_array_ := marker_array_ n;
     cam_center_ := cam_center_ n |}.
Definition set_classifier (n : t) (c : NumberClassifier.t) : t :=
  {| detector_ := detector_ n; classifier_ := c; debug_ := debug_ n;
     armors_msg_ := armors_msg_ n; position_marker_ := position_marker_ n;
     text_marker_ := text_marker_ n; marker_array_ := marker_array_ n;
     cam_center_ := cam_center_ n |}.
Definition set_debug (n : t) (b : bool) : t :=
  {| detector_ := detector_ n; classifier_ := classifier_ n; debug_ := b;
     armors_msg_ := armors_msg_ n; position_marker_ := position_marker_ n;
     text_marker_ := text_marker_ n; marker_array_ := marker_array_ n;
     cam_center_ := cam_center_ n |}.
Definition set_position_marker (n : t) (m : Marker.t) : t :=
  {| detector_ := detector_ n; classifier_ := classifier_ n;
     debug_ := debug_ n; armors_msg_ := armors_msg_ n;
     position_marker_ := m; text_marker_ := text_marker_ n;
     marker_array_ := marker_array_ n; cam_center_ := cam_center_ n |}.
Definition set_marker_array (n : t) (ms : list Marker.t) : t :=
  {| detector_ := detector_ n; classifier_ := classifier_ n;
     debug_ := debug_ n; armors_msg_ := armors_msg_ n;
     position_marker_ := position_marker_ n;
     text_marker_ := text_marker_ n; marker_array_ := ms;
     cam_center_ := cam_center_ n |}.
End Node.

(* ================================================================== *)
(** * What the node is linked against *)
(* ================================================================== *)

Definition Scalar : Type := (Z * Z * Z)%type.

(** The OpenCV calls of the node, on Mats passed by value. *)
Class OpenCV : Type :=
  { (** [cv::resize(src, dst, dsize)] *)
    resize : Mat -> Size -> Mat;
    (** [cv::vconcat(src, dst)] *)
    vconcat : list Mat -> Mat;
    (** [cv::putText(img, text, org, FONT_HERSHEY_SIMPLEX, scale, color, thickness)] *)
    putText : Mat -> string -> Point2f -> double -> Scalar -> Z -> Mat;
    (** [cv::ellipse(img, box, color, thickness)] *)
    ellipse : Mat -> Light.t -> Scalar -> Z -> Mat;
    (** [cv::line(img, pt1, pt2, color, thickness)] *)
    line : Mat -> Point2f -> Point2f -> Scalar -> Z -> Mat;
    (** [cv::circle(img, center, radius, color, thickness)] *)
    circle : Mat -> Point2f -> Z -> Scalar -> Z -> Mat }.

(** The methods of [Detector] the node calls (detector.cpp is outside the
    sources).  They are not declared const: each returns the detector it
    leaves behind; the image arguments are read only. *)
Class DetectorImpl : Type :=
  { preprocessImage : Detector.t -> Mat -> Mat * Detector.t;
    findLights : Detector.t -> Mat -> Mat -> list Light.t * Detector.t;
    matchLights : Detector.t -> list Light.t -> list Armor.t * Detector.t }.

(** The methods of [NumberClassifier] the node calls; both work on the
    vector of armors in place. *)
Class ClassifierImpl : Type :=
  { extractNumbers :
      NumberClassifier.t -> Mat -> list Armor.t ->
      list Armor.t * NumberClassifier.t;
    doClassify :
      NumberClassifier.t -> list Armor.t ->
      list Armor.t * NumberClassifier.t }.

(** The three parameters [detectArmors] reads:
    ["min_lightness"], ["detect_color"], ["classifier.threshold"]. *)
Inductive ParamName : Type :=
| min_lightness
| detect_color
| classifier_threshold.

Record Params : Type :=
  { p_min_lightness : Z;
    p_detect_color : Z;
    p_classifier_threshold : double }.

(** The ROS side.  The parameter server and the clock belong to the
    environment: [parameters k] and [clock k] are what the node sees after
    [k] events of its trace, so that a parameter set from outside while a
    frame is processed is a store that changes with [k]. *)
Class Runtime : Type :=
  { (** [cv_bridge::toCvShare(msg, encoding)->image]; throws on a message
        it cannot convert *)
    toCvShare : ImageMsg -> string -> option Mat;
    clock : nat -> Z;
    parameters : nat -> Params;
    (** [std::to_string(double)] *)
    to_string : double -> string }.

(* ================================================================== *)
(** * Events and the node monad *)
(* ================================================================== *)

Inductive Stage : Type :=
| PreprocessImage
| FindLights
| MatchLights
| ExtractNumbers
| DoClassify.

Inductive Event : Type :=
| Now (t : Z)
| GetParameter (p : ParamName)
| Call (s : Stage)
| LogInfo (latency : double)
| PublishBinaryImg (h : Header) (m : Mat)
| PublishLightsData (d : list DebugLight)
| PublishArmorsData (d : list DebugArmor)
| PublishNumber (h : Header) (m : Mat)
| PublishFinalImg (h : Header) (m : Mat)
| PublishMarkers (ms : list Marker.t).

Record World : Type := { node : Node.t; trace : list Event }.

Definition M (A : Type) : Type := World -> A * World.

Definition ret {A : Type} (a : A) : M A := fun w => (a, w).

Definition bind {A B : Type} (c : M A) (k : A -> M B) : M B :=
  fun w => let (a, w') := c w in k a w'.

Notation "x <- c ;; k" := (bind c (fun x => k))
  (at level 61, c at next level, right associativity).
Notation "' pat <- c ;; k" :=
  (bind c (fun x => match x with pat => k end))
  (at level 61, pat pattern, c at next level, right associativity).
Notation "c ;;; k" := (bind c (fun _ => k))
  (at level 61, right associativity).

Definition emit (e : Event) : M unit :=
  fun w => (tt, {| node := node w; trace := trace w ++ [e] |}).

Definition get_node : M Node.t := fun w => (node w, w).

Definition put_node (n : Node.t) : M unit :=
  fun w => (tt, {| node := n; trace := trace w |}).

Definition modify_detector (f : Detector.t -> Detector.t) : M unit :=
  n <- get_node ;; put_node (Node.set_detector n (f (Node.detector_ n))).

Definition modify_classifier
           (f : NumberClassifier.t -> NumberClassifier.t) : M unit :=
  n <- get_node ;; put_node (Node.set_classifier n (f (Node.classifier_ n))).

Definition call_detector {A : Type} (s : Stage)
           (f : Detector.t -> A * Detector.t) : M A :=
  emit (Call s) ;;;
  n <- get_node ;;
  let (r, d) := f (Node.detector_ n) in
  put_node (Node.set_detector n d) ;;;
  ret r.

Definition call_classifier {A : Type} (s : Stage)
           (f : NumberClassifier.t -> A * NumberClassifier.t) : M A :=
  emit (Call s) ;;;
  n <- get_node ;;
  let (r, c) := f (Node.classifier_ n) in
  put_node (Node.set_classifier n c) ;;;
  ret r.

Inductive Failure : Type := CvBridgeException.

(** [std::vector::empty]. *)
Definition empty {A : Type} (l : list A) : bool :=
  match l with [] => true | _ :: _ => false end.

Section NodeOps.
Context {cv : OpenCV} {det : DetectorImpl} {cls : ClassifierImpl}
        {ros : Runtime}.

(** [this->now()], in nanoseconds. *)
Definition now : M Z :=
  fun w =>
    let t := clock (List.length (trace w)) in
    (t, {| node := node w; trace := trace w ++ [Now t] |}).

(** [get_parameter(name).as_int()] and [.as_double()]. *)
Definition get_parameter {A : Type} (p : ParamName) (as_ : Params -> A)
  : M A :=
  fun w =>
    (as_ (parameters (List.length (trace w))),
     {| node := node w; trace := trace w ++ [GetParameter p] |}).

(** [(final_time - start_time).seconds() * 1000]. *)
Definition latency_ms (start_time final_time : Z) : double :=
  mul (div (of_Z (final_time - start_time)) (of_Z 1000000000)) (of_Z 1000).

Definition point (px py : Z) : Point2f :=
  {| pt_x := of_Z px; pt_y := of_Z py |}.

(** [BaseDetectorNode::drawResults]. *)
Definition drawResults (cam_center : Point2f) (img : Mat)
           (lights : list Light.t) (armors : list Armor.t) : Mat :=
  (* Draw Lights *)
  let img :=
    fold_left
      (fun im light =>
         let color :=
           if Light.color light =? RED then (255, 255, 0)
           else (255, 0, 255) in
         ellipse im light color 2)
      lights img in
  (* Draw armors *)
  let img :=
    fold_left
      (fun im armor =>
         let im :=
           line im (Light.top (Armor.left_light armor))
                (Light.bottom (Armor.right_light armor)) (0, 255, 0) 2 in
         line im (Light.bottom (Armor.left_light armor))
              (Light.top (Armor.right_light armor)) (0, 255, 0) 2)
      armors img in
  (* Show numbers and confidence *)
  let img :=
    fold_left
      (fun im armor =>
         putText im (Armor.classfication_result armor)
                 (Light.top (Armor.left_light armor))
                 (div (of_Z 8) (of_Z 10)) (0, 255, 255) 2)
      armors img in
  (* Draw camera center *)
  circle img cam_center 5 (255, 0, 0) 2.

(** The block [// Extract numbers] of [detectArmors]. *)
Definition extractAndClassify (img : Mat) (armors : list Armor.t)
  : M (list Armor.t) :=
  if negb (empty armors) then
    armors <- call_classifier ExtractNumbers
                (fun c => extractNumbers c img armors) ;;
    threshold <- get_parameter classifier_threshold
                   p_classifier_threshold ;;
    modify_classifier
      (fun c => NumberClassifier.set_threshold c threshold) ;;;
    call_classifier DoClassify (fun c => doClassify c armors)
  else ret armors.

(** The body of [if (debug_)] in [detectArmors]: [// Publish debug info].
    The loop over [auto & armor] resizes every number image in the
    vector that is returned afterwards. *)
Definition publishDebugInfo (img_msg : ImageMsg) (start_time : Z)
           (img binary_img : Mat) (lights : list Light.t)
           (armors : list Armor.t) : M (list Armor.t) :=
  final_time <- now ;;
  let latency := latency_ms start_time final_time in
  emit (LogInfo latency) ;;;
  let img :=
    putText img ("Latency: " ++ to_string latency ++ "ms")
            (point 10 30) (of_Z 1) (0, 255, 0) 2 in
  emit (PublishBinaryImg (header img_msg) binary_img) ;;;
  modify_detector
    (fun d =>
       Detector.set_debug_lights d
         (std_sort (fun l1 l2 => dl_center_x l1 <? dl_center_x l2)
                   (Detector.debug_lights d))) ;;;
  modify_detector
    (fun d =>
       Detector.set_debug_armors d
         (std_sort (fun a1 a2 => da_center_x a1 <? da_center_x a2)
                   (Detector.debug_armors d))) ;;;
  n <- get_node ;;
  emit (PublishLightsData (Detector.debug_lights (Node.detector_ n))) ;;;
  emit (PublishArmorsData (Detector.debug_armors (Node.detector_ n))) ;;;
  armors <-
    (if negb (empty armors) then
       (* Combine all number images to one *)
       let armors :=
         map (fun armor =>
                Armor.set_number_img armor
                  (resize (Armor.number_img armor)
                          {| width := 20; height := 28 |}))
             armors in
       let number_imgs := map Armor.number_img armors in
       let all_num_img := vconcat number_imgs in
       emit (PublishNumber (header img_msg) all_num_img) ;;;
       ret armors
     else ret armors) ;;
  let img := drawResults (Node.cam_center_ n) img lights armors in
  emit (PublishFinalImg (header img_msg) img) ;;;
  ret armors.

(** The block [// Detect armors] of [detectArmors]. *)
Definition detectStages (img : Mat)
  : M (Mat * list Light.t * list Armor.t) :=
  v <- get_parameter min_lightness p_min_lightness ;;
  modify_detector (fun d => Detector.set_min_lightness d v) ;;;
  v <- get_parameter detect_color p_detect_color ;;
  modify_detector (fun d => Detector.set_detect_color d v) ;;;
  binary_img <- call_detector PreprocessImage
                  (fun d => preprocessImage d img) ;;
  lights <- call_detector FindLights
              (fun d => findLights d img binary_img) ;;
  armors <- call_detector MatchLights (fun d => matchLights d lights) ;;
  ret (binary_img, lights, armors).

(** [BaseDetectorNode::detectArmors]. *)
Definition detectArmors (img_msg : ImageMsg)
  : M (result Failure (list Armor.t)) :=
  start_time <- now ;;
  (* Convert ROS img to cv::Mat *)
  match toCvShare img_msg "rgb8" with
  | None => ret (Err CvBridgeException)
  | Some img =>
      '(binary_img, lights, armors) <- detectStages img ;;
      armors <- extractAndClassify img armors ;;
      n <- get_node ;;
      armors <-
        (if Node.debug_ n then
           publishDebugInfo img_msg start_time img binary_img lights armors
         else ret armors) ;;
      ret (Ok armors)
  end.

(** [BaseDetectorNode::publishMarkers]. *)
Definition publishMarkers : M unit :=
  n <- get_node ;;
  let position_marker :=
    Marker.set_action (Node.position_marker_ n)
      (if empty (armors (Node.armors_msg_ n)) then Marker.DELETE
       else Marker.ADD) in
  let n := Node.set_position_marker n position_marker in
  let n :=
    Node.set_marker_array n (Node.marker_array_ n ++ [position_marker]) in
  put_node n ;;;
  emit (PublishMarkers (Node.marker_array_ n)).

End NodeOps.

(* ================================================================== *)
(** * ArmorMatcher *)
(* ================================================================== *)

Module ArmorMatcher.

(** The angle, in degrees, between the line through two centres and the
    axis of a light (an inverse trigonometric function of the C++
    library). *)
Class Trig : Type :=
  { axis_angle : Point2f -> Point2f -> Light.t -> double }.

Section Matcher.
Context {trig : Trig}.
Variable a : ArmorParams.

(** Modelled from the spec: the order of the initial sort of
    [matchLights], by colour, then by horizontal centre position. *)
Definition light_before (l1 l2 : Light.t) : bool :=
  (Light.color l1 <? Light.color l2)
  || ((Light.color l1 =? Light.color l2)
      && ltb (pt_x (Light.center l1)) (pt_x (Light.center l2))).

Definition center_distance (l1 l2 : Light.t) : double :=
  let dx := sub (pt_x (Light.center l1)) (pt_x (Light.center l2)) in
  let dy := sub (pt_y (Light.center l1)) (pt_y (Light.center l2)) in
  sqrt (add (mul dx dx) (mul dy dy)).

Definition between (lo v hi : double) : bool := leb lo v && leb v hi.

(** Modelled from the spec: the geometric test of a pair of lights in
    [matchLights] (detector.cpp is outside the sources): the ratio of
    the two lengths, the centre distance normalised by the average
    length, which selects the size class, and the two angles. *)
Definition isArmor (l1 l2 : Light.t) : ArmorType :=
  let avg_length :=
    div (add (Light.length l1) (Light.length l2)) (of_Z 2) in
  let light_ratio :=
    if ltb (Light.length l1) (Light.length l2)
    then div (Light.length l1) (Light.length l2)
    else div (Light.length l2) (Light.length l1) in
  let light_ratio_ok := negb (ltb light_ratio (min_light_ratio a)) in
  let distance := div (center_distance l1 l2) avg_length in
  let angle_ok :=
    negb (ltb (max_angle a)
              (axis_angle (Light.center l1) (Light.center l2) l1))
    && negb (ltb (max_angle a)
                 (axis_angle (Light.center l1) (Light.center l2) l2)) in
  if light_ratio_ok && angle_ok then
    if between (min_small_center_distance a) distance
               (max_small_center_distance a) then SMALL
    else if between (min_large_center_distance a) distance
                    (max_large_center_distance a) then LARGE
    else INVALID
  else INVALID.

Definition no_image : Mat :=
  {| rows := 0; cols := 0; channels := 1; data := [] |}.

Definition midpoint (p q : Point2f) : Point2f :=
  {| pt_x := div (add (pt_x p) (pt_x q)) (of_Z 2);
     pt_y := div (add (pt_y p) (pt_y q)) (of_Z 2) |}.

Definition makeArmor (l1 l2 : Light.t) (ty : ArmorType) : Armor.t :=
  {| Armor.left_light := l1;
     Armor.right_light := l2;
     Armor.center := midpoint (Light.center l1) (Light.center l2);
     Armor.type := ty;
     Armor.number_img := no_image;
     Armor.number := EmptyString;
     Armor.confidence := zero;
     Armor.classfication_result := EmptyString |}.

Definition consumed (used : list nat) (i : nat) : bool :=
  existsb (Nat.eqb i) used.

(** The first light right of [l1] that is free, has its colour and
    passes the test with it. *)
Fixpoint partner (used : list nat) (l1 : Light.t)
         (js : list (nat * Light.t)) : option (nat * Armor.t) :=
  match js with
  | [] => None
  | (j, l2) :: js' =>
      if consumed used j then partner used l1 js'
      else if Light.color l1 =? Light.color l2 then
        match isArmor l1 l2 with
        | INVALID => partner used l1 js'
        | ty => Some (j, makeArmor l1 l2 ty)
        end
      else partner used l1 js'
  end.

(** Modelled from the spec: the pairing loop of [matchLights].  Pairs
    [(i, j)], [i] left of [j], are visited in order; a pair with a
    consumed light is skipped, so every light takes part in at most
    one armor.  The rule for a light with several valid partners,
    which the specification leaves to the implementer: the first
    valid partner in the sorted order wins. *)
Fixpoint pairLights (used : list nat) (ils : list (nat * Light.t))
  : list (nat * nat * Armor.t) :=
  match ils with
  | [] => []
  | (i, l1) :: rest =>
      if consumed used i then pairLights used rest
      else
        match partner used l1 rest with
        | None => pairLights used rest
        | Some (j, armor) =>
            (i, j, armor) :: pairLights (i :: j :: used) rest
        end
  end.

Definition sortLights (lights : list Light.t) : list Light.t :=
  std_sort light_before lights.

Definition indexed (lights : list Light.t) : list (nat * Light.t) :=
  combine (seq 0 (List.length lights)) lights.

(** The armors with the positions of their two lights in the sorted
    list. *)
Definition matchLightsIndexed (lights : list Light.t)
  : list (nat * nat * Armor.t) :=
  pairLights [] (indexed (sortLights lights)).

(** Modelled from the spec: [Detector::matchLights], called by
    [detectArmors], defined outside the sources. *)
Definition matchLights (lights : list Light.t) : list Armor.t :=
  map snd (matchLightsIndexed lights).

(** The light positions used by a list of indexed armors. *)
Definition lightsUsed (ps : list (nat * nat * Armor.t)) : list nat :=
  flat_map (fun p => [fst (fst p); snd (fst p)]) ps.

End Matcher.

End ArmorMatcher.

(* ================================================================== *)
(** * DetectionPipeline: positions from the depth map *)
(* ================================================================== *)

(** Modelled from the spec: the optional last step of the pipeline, whose
    code is outside the sources.  With a depth map, every armor gets the
    position of its centre; an [InvalidDepth] leaves the position out and
    the armor as it is. *)
Definition computePositions (dp : DepthProcessor.t)
           (depth_image : option DepthImage) (armors : list Armor.t)
  : list (Armor.t * option Point.t) :=
  map (fun armor =>
         (armor,
          match depth_image with
          | None => None
          | Some depth =>
              match DepthProcessor.getPosition dp depth (Armor.center armor) with
              | Ok p => Some p
              | Err _ => None
              end
          end))
      armors.

(* ================================================================== *)
(** * A concrete frame: two bright columns, one armor *)
(* ================================================================== *)

Module Scenario.

(** The decimal literal [n/d]. *)
Definition lit (n d : Z) : double := div (of_Z n) (of_Z d).

(** The defaults declared by [initDetector] and the constructor. *)
Definition l_params : LightParams :=
  {| lp_min_ratio := lit 1 10; lp_max_ratio := lit 55 100;
     lp_max_angle := of_Z 40 |}.

Definition a_params : ArmorParams :=
  {| min_light_ratio := lit 6 10;
     min_small_center_distance := lit 8 10;
     max_small_center_distance := lit 28 10;
     min_large_center_distance := lit 32 10;
     max_large_center_distance := lit 43 10;
     max_angle := of_Z 35 |}.

Definition params0 : Params :=
  {| p_min_lightness := 160; p_detect_color := RED;
     p_classifier_threshold := lit 7 10 |}.

(** The store after the threshold has been raised from outside. *)
Definition params1 : Params :=
  {| p_min_lightness := 160; p_detect_color := RED;
     p_classifier_threshold := lit 95 100 |}.

(** Lights on the image axis are upright. *)
#[local] Instance trig : ArmorMatcher.Trig :=
  {| ArmorMatcher.axis_angle := fun _ _ _ => zero |}.

(** The first channel of the pixel in row [r], column [c]. *)
Definition pixel (m : Mat) (r c : Z) : Z :=
  nth (Z.to_nat ((r * cols m + c) * channels m)) (data m) 0.

(** Nearest-neighbour resampling of a one-channel image. *)
Definition nn_resize (m : Mat) (s : Size) : Mat :=
  {| rows := height s;
     cols := width s;
     channels := 1;
     data :=
       flat_map
         (fun r =>
            map (fun c =>
                   pixel m (Z.of_nat r * rows m / height s)
                           (Z.of_nat c * cols m / width s))
                (seq 0 (Z.to_nat (width s))))
         (seq 0 (Z.to_nat (height s))) |}.

#[local] Instance cv : OpenCV :=
  {| resize := nn_resize;
     vconcat :=
       fun ms =>
         {| rows := fold_right (fun m n => rows m + n) 0 ms;
            cols := match ms with [] => 0 | m :: _ => cols m end;
            channels := 1;
            data := flat_map data ms |};
     putText := fun m _ _ _ _ _ => m;
     ellipse := fun m _ _ _ => m;
     line := fun m _ _ _ _ => m;
     circle := fun m _ _ _ _ => m |}.

(** One light per bright pixel of the first row. *)
Definition lightAt (color : Z) (c : Z) : Light.t :=
  {| Light.color := color;
     Light.top := {| pt_x := of_Z c; pt_y := of_Z 0 |};
     Light.bottom := {| pt_x := of_Z c; pt_y := of_Z 10 |};
     Light.center := {| pt_x := of_Z c; pt_y := of_Z 5 |};
     Light.length := of_Z 10;
     Light.width := of_Z 2;
     Light.tilt_angle := zero |}.

Definition brightColumns (binary_img : Mat) : list Z :=
  filter (fun c => 0 <? pixel binary_img 0 c)
         (map Z.of_nat (seq 0 (Z.to_nat (cols binary_img)))).

#[local] Instance det : DetectorImpl :=
  {| preprocessImage :=
       fun d img =>
         ({| rows := rows img; cols := cols img; channels := 1;
             data :=
               flat_map
                 (fun r =>
                    map (fun c =>
                           if Detector.min_lightness d
                              <? pixel img (Z.of_nat r) (Z.of_nat c)
                           then 255 else 0)
                        (seq 0 (Z.to_nat (cols img))))
                 (seq 0 (Z.to_nat (rows img))) |}, d);
     findLights :=
       fun d img binary_img =>
         let columns := brightColumns binary_img in
         (map (lightAt (Detector.detect_color d)) columns,
          Detector.set_debug_lights d
            (map (fun c => {| dl_center_x := c; dl_measurements := [] |})
                 (rev columns)));
     matchLights :=
       fun d lights =>
         let found :=
           ArmorMatcher.matchLightsIndexed (Detector.a d) lights in
         (map snd found,
          Detector.set_debug_armors d
            (map (fun p =>
                    {| da_center_x := Z.of_nat (snd (fst p));
                       da_measurements := [] |})
                 (rev found))) |}.

Definition number_28x32 : Mat :=
  {| rows := 28; cols := 32; channels := 1;
     data := map (fun k => Z.of_nat k mod 256) (seq 0 (28 * 32)) |}.

#[local] Instance cls : ClassifierImpl :=
  {| extractNumbers :=
       fun c img armors =>
         (map (fun armor => Armor.set_number_img armor number_28x32)
              armors, c);
     doClassify :=
       fun c armors =>
         (map (fun armor =>
                 {| Armor.left_light := Armor.left_light armor;
                    Armor.right_light := Armor.right_light armor;
                    Armor.center := Armor.center armor;
                    Armor.type := Armor.type armor;
                    Armor.number_img := Armor.number_img armor;
                    Armor.number :=
                      if ltb (lit 9 10) (NumberClassifier.threshold c)
                      then "unknown"%string else "1"%string;
                    Armor.confidence := lit 9 10;
                    Armor.classfication_result := "1: 90.0%"%string |})
              armors, c) |}.

(** The colour image of a message. *)
Definition image (msg : ImageMsg) : Mat :=
  {| rows := img_height msg; cols := img_width msg; channels := 3;
     data := img_data msg |}.

(** A runtime whose parameter store is [params0] for the first
    [switch] events and [params1] from then on. *)
Definition runtime (switch : nat) : Runtime :=
  {| toCvShare :=
       fun msg enc =>
         if String.eqb (encoding msg) enc
            && (Z.of_nat (List.length (img_data msg))
                =? img_height msg * img_width msg * 3)
         then Some (image msg)
         else None;
     clock := fun k => 1000000 * Z.of_nat k;
     parameters :=
       fun k => if Nat.ltb k switch then params0 else params1;
     to_string := fun _ => "0.000000"%string |}.

(** A store that never changes. *)
Definition steady : Runtime := runtime 1000.

Definition frame (bright : list Z) : ImageMsg :=
  {| header := {| stamp := 0; frame_id := "camera"%string |};
     img_height := 1;
     img_width := 40;
     encoding := "rgb8"%string;
     img_data :=
       flat_map
         (fun c => if existsb (Z.eqb (Z.of_nat c)) bright
                   then [255; 255; 255] else [0; 0; 0])
         (seq 0 40) |}.

Definition marker0 : Marker.t :=
  {| Marker.ns := "armors"%string; Marker.type := Marker.SPHERE_LIST;
     Marker.action := Marker.ADD; Marker.points := [];
     Marker.text := EmptyString |}.

Definition node0 (debug : bool) : Node.t :=
  {| Node.detector_ :=
       {| Detector.min_lightness := 160; Detector.detect_color := RED;
          Detector.l := l_params; Detector.a := a_params;
          Detector.debug_lights := []; Detector.debug_armors := [] |};
     Node.classifier_ :=
       {| NumberClassifier.threshold := lit 7 10;
          NumberClassifier.model_path := "model/fc.onnx"%string;
          NumberClassifier.label_path := "model/label.txt"%string |};
     Node.debug_ := debug;
     Node.armors_msg_ :=
       {| armors_header := {| stamp := 0; frame_id := EmptyString |};
          armors := [] |};
     Node.position_marker_ := marker0;
     Node.text_marker_ := marker0;
     Node.marker_array_ := [];
     Node.cam_center_ := {| pt_x := of_Z 20; pt_y := of_Z 0 |} |}.

Definition world0 (debug : bool) : World :=
  {| node := node0 debug; trace := [] |}.

(** The armor of the lights in columns 10 and 30, as the classifier
    labels it. *)
Definition armor_10_30 (label : string) : Armor.t :=
  {| Armor.left_light := lightAt RED 10;
     Armor.right_light := lightAt RED 30;
     Armor.center := {| pt_x := of_Z 20; pt_y := of_Z 5 |};
     Armor.type := SMALL;
     Armor.number_img := number_28x32;
     Armor.number := label;
     Armor.confidence := lit 9 10;
     Armor.classfication_result := "1: 90.0%"%string |}.

End Scenario.

(* ================================================================== *)
(** * Observations on a run *)
(* ================================================================== *)

(** The events an action adds to the trace. *)
Definition events_of {A : Type} (c : M A) (w : World) : list Event :=
  skipn (List.length (trace w)) (trace (snd (c w))).

(** The stages called, in order. *)
Definition stagesOf (evs : list Event) : list Stage :=
  flat_map (fun e => match e with Call s => [s] | _ => [] end) evs.

(** The configuration reads and the stage calls, in order. *)
Inductive Step : Type :=
| Read (p : ParamName)
| Run (s : Stage).

Definition stepsOf (evs : list Event) : list Step :=
  flat_map (fun e =>
              match e with
              | GetParameter p => [Read p]
              | Call s => [Run s]
              | _ => []
              end) evs.

(** No configuration read after a stage has run. *)
Fixpoint readsFirst (steps : list Step) : bool :=
  match steps with
  | [] => true
  | Read _ :: rest => readsFirst rest
  | Run _ :: rest =>
      forallb (fun s => match s with Run _ => true | Read _ => false end) rest
  end.

Definition lightsPublished (evs : list Event) : list (list DebugLight) :=
  flat_map (fun e => match e with PublishLightsData d => [d] | _ => [] end)
           evs.

Definition armorsPublished (evs : list Event) : list (list DebugArmor) :=
  flat_map (fun e => match e with PublishArmorsData d => [d] | _ => [] end)
           evs.

Definition markersPublished (evs : list Event) : list (list Marker.t) :=
  flat_map (fun e => match e with PublishMarkers ms => [ms] | _ => [] end)
           evs.

(** The node with its [debug_] member set. *)
Definition with_debug (b : bool) (w : World) : World :=
  {| node := Node.set_debug (node w) b; trace := trace w |}.

(** What the [// Publish debug info] block does to a returned armor. *)
Definition resizeNumber {cv : OpenCV} (armor : Armor.t) : Armor.t :=
  Armor.set_number_img armor
    (resize (Armor.number_img armor) {| width := 20; height := 28 |}).

Definition map_result {E A B : Type} (f : A -> B) (r : result E A)
  : result E B :=
  match r with Ok a => Ok (f a) | Err e => Err e end.

(** The detector the stages start from: the node's, with the two
    parameters read after [t0 + 1] and [t0 + 2] events. *)
Definition configured {ros : Runtime} (w : World) : Detector.t :=
  let t0 := List.length (trace w) in
  Detector.set_detect_color
    (Detector.set_min_lightness (Node.detector_ (node w))
       (p_min_lightness (parameters (t0 + 1)%nat)))
    (p_detect_color (parameters (t0 + 2)%nat)).

(** The events of the [// Publish debug info] block, from the values the
    stages left: [d] is the detector, [t1] the number of events before. *)
Definition debugEvents {cv : OpenCV} {ros : Runtime}
           (img_msg : ImageMsg) (img binary_img : Mat)
           (lights : list Light.t) (armors : list Armor.t)
           (d : Detector.t) (cam_center : Point2f)
           (start_time : Z) (t1 : nat) : list Event :=
  let latency := latency_ms start_time (clock t1) in
  let text_img :=
    putText img ("Latency: " ++ to_string latency ++ "ms")
            (point 10 30) (of_Z 1) (0, 255, 0) 2 in
  [Now (clock t1); LogInfo latency;
   PublishBinaryImg (header img_msg) binary_img;
   PublishLightsData
     (std_sort (fun l1 l2 => dl_center_x l1 <? dl_center_x l2)
               (Detector.debug_lights d));
   PublishArmorsData
     (std_sort (fun a1 a2 => da_center_x a1 <? da_center_x a2)
               (Detector.debug_armors d))]
    ++ (if empty armors then []
        else [PublishNumber (header img_msg)
                (vconcat (map Armor.number_img (map resizeNumber armors)))])
    ++ [PublishFinalImg (header img_msg)
          (drawResults cam_center text_img lights
                       (map resizeNumber armors))].

Definition by_center_x_lights (l1 l2 : DebugLight) : Prop :=
  dl_center_x l1 <= dl_center_x l2.

Definition by_center_x_armors (a1 a2 : DebugArmor) : Prop :=
  da_center_x a1 <= da_center_x a2.

(* ================================================================== *)
(** * Declaring parameters *)
(* ================================================================== *)

Module Parameters.

(** [rclcpp::ParameterValue], the types the node declares. *)
Inductive Value : Type :=
| PBool (b : bool)
| PInt (i : Z)
| PDouble (d : double).

(** [rcl_interfaces::msg::IntegerRange]. *)
Record IntegerRange : Type :=
  { from_value : Z; to_value : Z; step : Z }.

(** [rcl_interfaces::msg::ParameterDescriptor]: the members
    [initDetector] writes. *)
Record Descriptor : Type :=
  { description : string; integer_range : list IntegerRange }.

(** A default-constructed descriptor. *)
Definition descriptor : Descriptor :=
  {| description := EmptyString; integer_range := [] |}.

(** [param_desc.integer_range.resize(n)]. *)
Definition resize_integer_range (d : Descriptor) (n : nat) : Descriptor :=
  {| description := description d;
     integer_range :=
       firstn n (integer_range d)
         ++ repeat {| from_value := 0; to_value := 0; step := 0 |}
                   (n - List.length (integer_range d)) |}.

(** [param_desc.integer_range[0].member = v]. *)
Definition set_range0 (f : IntegerRange -> IntegerRange) (d : Descriptor)
  : Descriptor :=
  {| description := description d;
     integer_range :=
       match integer_range d with
       | [] => []
       | r :: rest => f r :: rest
       end |}.

Definition set_step (v : Z) (r : IntegerRange) : IntegerRange :=
  {| from_value := from_value r; to_value := to_value r; step := v |}.
Definition set_from_value (v : Z) (r : IntegerRange) : IntegerRange :=
  {| from_value := v; to_value := to_value r; step := step r |}.
Definition set_to_value (v : Z) (r : IntegerRange) : IntegerRange :=
  {| from_value := from_value r; to_value := v; step := step r |}.
Definition set_description (s : string) (d : Descriptor) : Descriptor :=
  {| description := s; integer_range := integer_range d |}.

Inductive Error : Type :=
| ParameterAlreadyDeclared
| InvalidParameterType
| InvalidParameterValue.

Record Entry : Type :=
  { name : string; value : Value; entry_descriptor : Descriptor }.

(** The parameters of a node: the overrides it was started with and the
    parameters declared so far, in the order of their declaration. *)
Record Store : Type :=
  { overrides : list (string * Value); declared : list Entry }.

Fixpoint override_of (n : string) (ovs : list (string * Value))
  : option Value :=
  match ovs with
  | [] => None
  | (k, v) :: rest => if String.eqb k n then Some v else override_of n rest
  end.

Fixpoint declared_value (n : string) (es : list Entry) : option Value :=
  match es with
  | [] => None
  | e :: rest =>
      if String.eqb (name e) n then Some (value e)
      else declared_value n rest
  end.

Definition has_parameter (n : string) (s : Store) : bool :=
  match declared_value n (declared s) with Some _ => true | None => false end.

Definition same_type (v w : Value) : bool :=
  match v, w with
  | PBool _, PBool _ | PInt _, PInt _ | PDouble _, PDouble _ => true
  | _, _ => false
  end.

(** The range check of rclcpp on an integer value: the two ends are
    always in range, a value between them when it is on a step. *)
Definition in_range (r : IntegerRange) (v : Z) : bool :=
  if (v =? from_value r) || (v =? to_value r) then true
  else if (v <? from_value r) || (to_value r <? v) then false
  else if step r =? 0 then true
  else Z.rem (v - from_value r) (step r) =? 0.

Definition check_value (d : Descriptor) (v : Value) : bool :=
  match v, integer_range d with
  | PInt i, r :: _ => in_range r i
  | _, _ => true
  end.

(** [Node::declare_parameter(name, default_value, descriptor)] of rclcpp:
    a name is declared once; the override of the name, when there is
    one, takes the place of the default; a value of another type than the
    default's, or outside the integer range of the descriptor, is
    refused. *)
Definition declare_parameter (n : string) (default : Value)
           (d : Descriptor) (s : Store) : result Error (Value * Store) :=
  if has_parameter n s then Err ParameterAlreadyDeclared
  else
    let v :=
      match override_of n (overrides s) with
      | Some o => o
      | None => default
      end in
    if negb (same_type v default) then Err InvalidParameterType
    else if negb (check_value d v) then Err InvalidParameterValue
    else
      Ok (v,
          {| overrides := overrides s;
             declared :=
               declared s
                 ++ [{| name := n; value := v; entry_descriptor := d |}] |}).

(** Declarations in sequence; an exception ends the sequence. *)
Definition P (A : Type) : Type := Store -> result Error (A * Store).

Definition pret {A : Type} (a : A) : P A := fun s => Ok (a, s).

Definition pbind {A B : Type} (c : P A) (k : A -> P B) : P B :=
  fun s =>
    match c s with
    | Ok (a, s') => k a s'
    | Err e => Err e
    end.

(** [declare_parameter<int>], with the narrowing of the stored
    [int64_t] to [int]. *)
Definition to_int (v : Z) : Z := (v + 2 ^ 31) mod 2 ^ 32 - 2 ^ 31.

Definition declare_int (n : string) (default : Z) (d : Descriptor) : P Z :=
  fun s =>
    match declare_parameter n (PInt default) d s with
    | Ok (PInt v, s') => Ok (to_int v, s')
    | Ok (_, _) => Err InvalidParameterType
    | Err e => Err e
    end.

Definition declare_double (n : string) (default : double) : P double :=
  fun s =>
    match declare_parameter n (PDouble default) descriptor s with
    | Ok (PDouble v, s') => Ok (v, s')
    | Ok (_, _) => Err InvalidParameterType
    | Err e => Err e
    end.

Definition declare_bool (n : string) (default : bool) : P bool :=
  fun s =>
    match declare_parameter n (PBool default) descriptor s with
    | Ok (PBool v, s') => Ok (v, s')
    | Ok (_, _) => Err InvalidParameterType
    | Err e => Err e
    end.

(** A node that has declared nothing yet. *)
Definition launch (ovs : list (string * Value)) : Store :=
  {| overrides := ovs; declared := [] |}.

End Parameters.

Notation "x <~ c ;; k" := (Parameters.pbind c (fun x => k))
  (at level 61, c at next level, right associativity).

(* ================================================================== *)
(** * The constructor *)
(* ================================================================== *)

(** The decimal literal [n / 10^k] of the source, as a double. *)
Definition decimal (n : Z) (k : Z) : double := div (of_Z n) (of_Z (10 ^ k)).

(** [BaseDetectorNode::initDetector].  The detector starts without debug
    records. *)
Definition initDetector : Parameters.P Detector.t :=
  let param_desc := Parameters.descriptor in
  let param_desc := Parameters.resize_integer_range param_desc 1 in
  let param_desc :=
    Parameters.set_range0 (Parameters.set_step 1) param_desc in
  let param_desc :=
    Parameters.set_range0 (Parameters.set_from_value 0) param_desc in
  let param_desc :=
    Parameters.set_range0 (Parameters.set_to_value 255) param_desc in
  min_lightness <~
    Parameters.declare_int "min_lightness" 160 param_desc ;;
  let param_desc :=
    Parameters.set_description "0-RED, 1-BLUE" param_desc in
  let param_desc :=
    Parameters.set_range0 (Parameters.set_from_value 0) param_desc in
  let param_desc :=
    Parameters.set_range0 (Parameters.set_to_value 1) param_desc in
  detect_color <~ Parameters.declare_int "detect_color" RED param_desc ;;
  min_ratio <~ Parameters.declare_double "light.min_ratio" (decimal 1 1) ;;
  max_ratio <~ Parameters.declare_double "light.max_ratio" (decimal 55 2) ;;
  l_max_angle <~ Parameters.declare_double "light.max_angle" (of_Z 40) ;;
  let l_params :=
    {| lp_min_ratio := min_ratio; lp_max_ratio := max_ratio;
       lp_max_angle := l_max_angle |} in
  a_min_light_ratio <~
    Parameters.declare_double "armor.min_light_ratio" (decimal 6 1) ;;
  a_min_small <~
    Parameters.declare_double "armor.min_small_center_distance"
      (decimal 8 1) ;;
  a_max_small <~
    Parameters.declare_double "armor.max_small_center_distance"
      (decimal 28 1) ;;
  a_min_large <~
    Parameters.declare_double "armor.min_large_center_distance"
      (decimal 32 1) ;;
  a_max_large <~
    Parameters.declare_double "armor.max_large_center_distance"
      (decimal 43 1) ;;
  a_max_angle <~ Parameters.declare_double "armor.max_angle" (of_Z 35) ;;
  let a_params :=
    {| min_light_ratio := a_min_light_ratio;
       min_small_center_distance := a_min_small;
       max_small_center_distance := a_max_small;
       min_large_center_distance := a_min_large;
       max_large_center_distance := a_max_large;
       max_angle := a_max_angle |} in
  Parameters.pret
    {| Detector.min_lightness := min_lightness;
       Detector.detect_color := detect_color;
       Detector.l := l_params;
       Detector.a := a_params;
       Detector.debug_lights := [];
       Detector.debug_armors := [] |}.

(** The quality of service of a publisher: [rclcpp::SensorDataQoS()] or
    a history depth. *)
Inductive QoS : Type :=
| SensorDataQoS
| Depth (n : Z).

(** An [rclcpp] publisher on a topic, and the five debug publishers of
    the node: a reset [shared_ptr] and a shut down
    [image_transport::Publisher] are [None]. *)
Record Publisher : Type := { topic : string; qos : QoS }.

Record DebugPublishers : Type :=
  { lights_data_pub_ : option Publisher;
    armors_data_pub_ : option Publisher;
    number_pub_ : option Publisher;
    binary_img_pub_ : option string;
    final_img_pub_ : option string }.

Definition no_publishers : DebugPublishers :=
  {| lights_data_pub_ := None; armors_data_pub_ := None;
     number_pub_ := None; binary_img_pub_ := None;
     final_img_pub_ := None |}.

(** [BaseDetectorNode::createDebugPublishers]. *)
Definition createDebugPublishers (pubs : DebugPublishers)
  : DebugPublishers :=
  {| lights_data_pub_ :=
       Some {| topic := "/debug/lights"; qos := Depth 10 |};
     armors_data_pub_ :=
       Some {| topic := "/debug/armors"; qos := Depth 10 |};
     number_pub_ := Some {| topic := "/number"; qos := Depth 10 |};
     binary_img_pub_ := Some "/binary_img"%string;
     final_img_pub_ := Some "/final_img"%string |}.

(** [BaseDetectorNode::destroyDebugPublishers]. *)
Definition destroyDebugPublishers (pubs : DebugPublishers)
  : DebugPublishers :=
  {| lights_data_pub_ := None;
     armors_data_pub_ := None;
     number_pub_ := None;
     binary_img_pub_ := None;
     final_img_pub_ := None |}.

(** The members of a marker the constructor writes, over a
    default-constructed message (empty namespace, action [ADD], zero
    scale, colour and lifetime). *)
Record MarkerSetup : Type :=
  { m_ns : string;
    m_type : option Marker.Type_;
    m_action : Marker.Action;
    m_scale : double * double * double;
    m_color_rgba : double * double * double * double;
    m_lifetime : double }.

Definition defaultMarker : MarkerSetup :=
  {| m_ns := EmptyString; m_type := None; m_action := Marker.ADD;
     m_scale := (zero, zero, zero);
     m_color_rgba := (zero, zero, zero, zero);
     m_lifetime := zero |}.

(** The members the constructor sets. *)
Record Constructed : Type :=
  { c_detector : Detector.t;
    c_classifier : NumberClassifier.t;
    c_transport : string;
    c_armors_pub : Publisher;
    c_position_marker : MarkerSetup;
    c_text_marker : MarkerSetup;
    c_marker_pub : Publisher;
    c_debug : bool;
    c_publishers : DebugPublishers }.

(** [BaseDetectorNode::BaseDetectorNode]; [pkg_path] is the share
    directory of the package.  The callback on ["debug"] it registers
    is [debugParameterCallback] below. *)
Definition construct (pkg_path : string) : Parameters.P Constructed :=
  (* Detector *)
  detector <~ initDetector ;;
  (* Number classifier *)
  let model_path := (pkg_path ++ "/model/fc.onnx")%string in
  let label_path := (pkg_path ++ "/model/label.txt")%string in
  threshold <~
    Parameters.declare_double "classifier.threshold" (decimal 7 1) ;;
  let classifier :=
    {| NumberClassifier.threshold := threshold;
       NumberClassifier.model_path := model_path;
       NumberClassifier.label_path := label_path |} in
  (* Subscriptions transport type *)
  compressed <~ Parameters.declare_bool "subscribe_compressed" false ;;
  let transport := if compressed then "compressed"%string else "raw"%string in
  (* Armors Publisher *)
  let armors_pub := {| topic := "/detector/armors"; qos := SensorDataQoS |} in
  (* Visualization Marker Publisher *)
  let position_marker :=
    {| m_ns := "armors";
       m_type := Some Marker.SPHERE_LIST;
       m_action := m_action defaultMarker;
       m_scale := (decimal 1 1, decimal 1 1, decimal 1 1);
       m_color_rgba := (of_Z 1, zero, zero, of_Z 1);
       m_lifetime := m_lifetime defaultMarker |} in
  let text_marker :=
    {| m_ns := "classification";
       m_type := Some Marker.TEXT_VIEW_FACING;
       m_action := Marker.ADD;
       m_scale := (zero, zero, decimal 1 1);
       m_color_rgba := (of_Z 1, of_Z 1, of_Z 1, of_Z 1);
       m_lifetime := decimal 1 1 |} in
  let marker_pub := {| topic := "/detector/marker"; qos := Depth 10 |} in
  (* Debug Publishers *)
  debug <~ Parameters.declare_bool "debug" false ;;
  let pubs :=
    if debug then createDebugPublishers no_publishers else no_publishers in
  Parameters.pret
    {| c_detector := detector;
       c_classifier := classifier;
       c_transport := transport;
       c_armors_pub := armors_pub;
       c_position_marker := position_marker;
       c_text_marker := text_marker;
       c_marker_pub := marker_pub;
       c_debug := debug;
       c_publishers := pubs |}.

(** The callback on the parameter ["debug"] ([// Debug param change
    moniter]), on the member [debug_] and the publishers. *)
Definition debugParameterCallback (p : bool)
           (st : bool * DebugPublishers) : bool * DebugPublishers :=
  let debug := p in
  (debug,
   if debug then createDebugPublishers (snd st)
   else destroyDebugPublishers (snd st)).

(* ================================================================== *)
(** * Observations on the constructor and on the debug output *)
(* ================================================================== *)

(** The names under which [detectArmors] reads its parameters. *)
Definition parameterName (p : ParamName) : string :=
  match p with
  | min_lightness => "min_lightness"
  | detect_color => "detect_color"
  | classifier_threshold => "classifier.threshold"
  end.

(** The type [detectArmors] reads a parameter as: [as_int] or
    [as_double]. *)
Definition readAs (p : ParamName) (v : Parameters.Value) : bool :=
  match p, v with
  | min_lightness, Parameters.PInt _
  | detect_color, Parameters.PInt _
  | classifier_threshold, Parameters.PDouble _ => true
  | _, _ => false
  end.

Definition present {A : Type} (o : option A) : bool :=
  match o with Some _ => true | None => false end.

(** All five debug publishers exist, or none does. *)
Definition allPresent (pubs : DebugPublishers) : bool :=
  present (lights_data_pub_ pubs) && present (armors_data_pub_ pubs)
  && present (number_pub_ pubs) && present (binary_img_pub_ pubs)
  && present (final_img_pub_ pubs).

Definition nonePresent (pubs : DebugPublishers) : bool :=
  negb (present (lights_data_pub_ pubs))
  && negb (present (armors_data_pub_ pubs))
  && negb (present (number_pub_ pubs))
  && negb (present (binary_img_pub_ pubs))
  && negb (present (final_img_pub_ pubs)).

(** The publishers follow the flag. *)
Definition publishersFollow (debug : bool) (pubs : DebugPublishers) : bool :=
  if debug then allPresent pubs else nonePresent pubs.

(** The publisher an event goes through is there. *)
Definition publisherThere (pubs : DebugPublishers) (e : Event) : bool :=
  match e with
  | PublishBinaryImg _ _ => present (binary_img_pub_ pubs)
  | PublishLightsData _ => present (lights_data_pub_ pubs)
  | PublishArmorsData _ => present (armors_data_pub_ pubs)
  | PublishNumber _ _ => present (number_pub_ pubs)
  | PublishFinalImg _ _ => present (final_img_pub_ pubs)
  | _ => true
  end.

Inductive Topic : Type :=
| BinaryImgTopic
| LightsDataTopic
| ArmorsDataTopic
| NumberTopic
| FinalImgTopic
| MarkerTopic.

(** The topics published on, in order. *)
Definition topicsOf (evs : list Event) : list Topic :=
  flat_map (fun e =>
              match e with
              | PublishBinaryImg _ _ => [BinaryImgTopic]
              | PublishLightsData _ => [LightsDataTopic]
              | PublishArmorsData _ => [ArmorsDataTopic]
              | PublishNumber _ _ => [NumberTopic]
              | PublishFinalImg _ _ => [FinalImgTopic]
              | PublishMarkers _ => [MarkerTopic]
              | _ => []
              end) evs.

Definition numbersPublished (evs : list Event) : list Mat :=
  flat_map (fun e => match e with PublishNumber _ m => [m] | _ => [] end)
           evs.

Definition logged (evs : list Event) : list double :=
  flat_map (fun e => match e with LogInfo l => [l] | _ => [] end) evs.

(** What [drawResults] reads of an armor. *)
Definition drawn (armor : Armor.t) : Light.t * Light.t * string :=
  (Armor.left_light armor, Armor.right_light armor,
   Armor.classfication_result armor).

(** [publishMarkers], [n] times in a row. *)
Definition publishMarkersTimes (n : nat) (w : World) : World :=
  Nat.iter n (fun w' => snd (publishMarkers w')) w.

(** A message [cv_bridge] cannot convert to [rgb8]. *)
Definition monoFrame : ImageMsg :=
  {| header := {| stamp := 0; frame_id := "camera"%string |};
     img_height := 1;
     img_width := 4;
     encoding := "mono8"%string;
     img_data := [0; 0; 0; 0] |}.

(* ================================================================== *)
(** * Two lights in one pixel column *)
(* ================================================================== *)

Module Ties.

(** The debug records of two lights with the same [center_x]. *)
Definition upper : DebugLight :=
  {| dl_center_x := 10; dl_measurements := [of_Z 1] |}.
Definition lower : DebugLight :=
  {| dl_center_x := 10; dl_measurements := [of_Z 2] |}.

(** A detector whose [findLights] reports the given debug records, in
    the order it found the lights, and which matches no armor. *)
Definition reporting (records : list DebugLight) : DetectorImpl :=
  {| preprocessImage := fun d img => (img, d);
     findLights :=
       fun d img binary_img => ([], Detector.set_debug_lights d records);
     matchLights :=
       fun d lights => ([], Detector.set_debug_armors d []) |}.

End Ties.

(* ================================================================== *)
(** * Facts on binary64 values *)
(* ================================================================== *)

Unset Implicit Arguments.

Section DoubleFacts.

Lemma eqb_zero_inv (u : double) (s : bool) :
  eqb u (S754_zero s) = true -> exists s', u = S754_zero s'.
Proof.
  destruct u as [s' | s' | | s' m e]; cbn; try discriminate.
  - intros _. now exists s'.
  - destruct s'; discriminate.
  - destruct s'; discriminate.
Qed.

Lemma eqb_finite_inv (u : double) (s : bool) (m : positive) (e : Z) :
  eqb u (S754_finite s m e) = true -> u = S754_finite s m e.
Proof.
  destruct u as [s' | s' | | s' m' e']; cbn; try discriminate.
  - destruct s; discriminate.
  - destruct s'; discriminate.
  - destruct s', s; try discriminate;
      destruct (Z.compare_spec e' e) as [He | He | He]; try discriminate;
      subst e'; rewrite Pos.compare_cont_spec;
      destruct (Pos.compare_spec m' m) as [Hm | Hm | Hm];
      cbn; try discriminate; now subst m'.
Qed.

(** A finite value minus an equal value is a zero. *)
Lemma sub_equal_is_zero (u c : double) :
  is_finite c = true -> eqb u c = true -> exists s, sub u c = S754_zero s.
Proof.
  destruct c as [s | s | | s m e]; cbn [is_finite]; try discriminate;
    intros _ Heq.
  - apply eqb_zero_inv in Heq as [s' ->].
    destruct s', s; cbn; eauto.
  - apply eqb_finite_inv in Heq as ->.
    exists false. unfold sub, SFsub. now rewrite Z.sub_diag.
Qed.

Lemma hypot_zero (s1 s2 : bool) :
  sqrt (add (mul (S754_zero s1) (S754_zero s1))
            (mul (S754_zero s2) (S754_zero s2))) = zero.
Proof. now destruct s1, s2. Qed.

Lemma invalid_depth_cases (d : double) :
  is_zero d = true \/ is_negative d = true \/ is_nan d = true ->
  DepthProcessor.invalid_depth d = true.
Proof.
  unfold DepthProcessor.invalid_depth.
  intros [-> | [-> | ->]]; now rewrite ?orb_true_r.
Qed.

End DoubleFacts.

(* ================================================================== *)
(** * DepthProcessor: theorems *)
(* ================================================================== *)

(** C5.  A depth sample that is zero, negative or not a number, or that is
    missing, makes [getPosition] fail with [InvalidDepth]; the pipeline
    then returns the armor as it was, without a position. *)
Theorem getPosition_invalid_depth :
  forall (dp : DepthProcessor.t) (depth_image : DepthImage)
         (image_point : Point2f),
    (DepthProcessor.sample depth_image image_point = None \/
     exists d, DepthProcessor.sample depth_image image_point = Some d /\
               (is_zero d = true \/ is_negative d = true \/ is_nan d = true)) ->
    DepthProcessor.getPosition dp depth_image image_point
    = Err DepthProcessor.InvalidDepth
    /\ forall armors armor,
        In armor armors ->
        Armor.center armor = image_point ->
        In (armor, None) (computePositions dp (Some depth_image) armors)
        /\ map fst (computePositions dp (Some depth_image) armors) = armors.
Proof.
  intros dp depth_image image_point Hbad.
  assert (Hfail : DepthProcessor.getPosition dp depth_image image_point
                  = Err DepthProcessor.InvalidDepth).
  { unfold DepthProcessor.getPosition.
    destruct Hbad as [-> | (d & -> & Hd)]; [reflexivity |].
    now rewrite (invalid_depth_cases d Hd). }
  split; [exact Hfail |].
  intros armors armor Hin Hcenter. split.
  - unfold computePositions. apply in_map_iff. exists armor.
    now rewrite Hcenter, Hfail.
  - unfold computePositions. rewrite map_map. cbn. apply map_id.
Qed.

Lemma getPosition_invalid_depth_witness :
  DepthProcessor.getPosition K500 (flat_depth 4 128 (S754_zero false))
                             (point 100 0)
  = Err DepthProcessor.InvalidDepth
  /\ DepthProcessor.getPosition K500 (flat_depth 4 128 S754_nan)
                                (point 100 0)
    = Err DepthProcessor.InvalidDepth.
Proof.
  split.
  - apply (getPosition_invalid_depth K500 (flat_depth 4 128 (S754_zero false))
                                     (point 100 0)).
    right. exists (S754_zero false). split; [reflexivity |].
    left. reflexivity.
  - apply (getPosition_invalid_depth K500 (flat_depth 4 128 S754_nan)
                                     (point 100 0)).
    right. exists S754_nan. split; [reflexivity |].
    right. right. reflexivity.
Defined.

(** C6.  With a valid depth sample [d], [getPosition] returns the pinhole
    back-projection [((u - cx) * d / fx, (v - cy) * d / fy, d)] in
    binary64 arithmetic; with [fx = fy = 500], [cx = cy = 0] and depth
    [2.0], the point [(0, 0)] gives exactly [(0, 0, 2.0)] and the point
    [(100, 0)] gives [X = 0.4]. *)
Theorem getPosition_pinhole :
  (forall (dp : DepthProcessor.t) (depth_image : DepthImage)
          (image_point : Point2f) (d : double),
      DepthProcessor.sample depth_image image_point = Some d ->
      DepthProcessor.invalid_depth d = false ->
      DepthProcessor.getPosition dp depth_image image_point
      = Ok {| Point.x :=
                div (mul (sub (pt_x image_point) (DepthProcessor.cx_ dp)) d)
                    (DepthProcessor.fx_ dp);
              Point.y :=
                div (mul (sub (pt_y image_point) (DepthProcessor.cy_ dp)) d)
                    (DepthProcessor.fy_ dp);
              Point.z := d |})
  /\ DepthProcessor.getPosition K500 (flat_depth 4 128 d2_0) (point 0 0)
     = Ok {| Point.x := zero; Point.y := zero; Point.z := d2_0 |}
  /\ map_result Point.x
       (DepthProcessor.getPosition K500 (flat_depth 4 128 d2_0) (point 100 0))
     = Ok d0_4
  /\ d2_0 = of_Z 2
  /\ d0_4 = div (of_Z 4) (of_Z 10).
Proof.
  split; [| repeat split; vm_compute; reflexivity].
  intros dp depth_image image_point d Hsample Hvalid.
  unfold DepthProcessor.getPosition. now rewrite Hsample, Hvalid.
Qed.

Lemma getPosition_pinhole_witness :
  DepthProcessor.getPosition K500 (flat_depth 4 128 d2_0) (point 100 0)
  = Ok {| Point.x := d0_4; Point.y := zero; Point.z := d2_0 |}.
Proof.
  exact (proj1 getPosition_pinhole K500 (flat_depth 4 128 d2_0)
               (point 100 0) d2_0 eq_refl eq_refl).
Defined.

(** C9.  [calculateDistanceToCenter] returns, as a [float], the
    Euclidean distance [sqrt ((u - cx)^2 + (v - cy)^2)] between the point
    and the optical centre; at the centre itself it is [0]; three columns
    and four rows away from it it is the float [5], and one column and
    one row away the float nearest to the square root of two. *)
Theorem calculateDistanceToCenter_euclidean :
  forall (dp : DepthProcessor.t) (image_point : Point2f),
    let dx := sub (pt_x image_point) (DepthProcessor.cx_ dp) in
    let dy := sub (pt_y image_point) (DepthProcessor.cy_ dp) in
    DepthProcessor.calculateDistanceToCenter dp image_point
    = Single.of_double (sqrt (add (mul dx dx) (mul dy dy)))
    /\ (is_finite (DepthProcessor.cx_ dp) = true ->
        is_finite (DepthProcessor.cy_ dp) = true ->
        eqb (pt_x image_point) (DepthProcessor.cx_ dp) = true ->
        eqb (pt_y image_point) (DepthProcessor.cy_ dp) = true ->
        DepthProcessor.calculateDistanceToCenter dp image_point = zero)
    /\ DepthProcessor.calculateDistanceToCenter
         {| DepthProcessor.fx_ := of_Z 500; DepthProcessor.fy_ := of_Z 500;
            DepthProcessor.cx_ := of_Z 320; DepthProcessor.cy_ := of_Z 240 |}
         (point 323 244) = S754_finite false 10485760 (-21)
    /\ DepthProcessor.calculateDistanceToCenter
         {| DepthProcessor.fx_ := of_Z 500; DepthProcessor.fy_ := of_Z 500;
            DepthProcessor.cx_ := of_Z 320; DepthProcessor.cy_ := of_Z 240 |}
         (point 321 241) = S754_finite false 11863283 (-23)
    /\ valid_binary Single.prec Single.emax
         (S754_finite false 10485760 (-21)) = true
    /\ valid_binary Single.prec Single.emax
         (S754_finite false 11863283 (-23)) = true.
Proof.
  intros dp image_point dx dy. split; [reflexivity |].
  split; [| repeat split; vm_compute; reflexivity].
  intros Hcx Hcy Hx Hy.
  unfold DepthProcessor.calculateDistanceToCenter.
  destruct (sub_equal_is_zero _ _ Hcx Hx) as [s1 H1].
  destruct (sub_equal_is_zero _ _ Hcy Hy) as [s2 H2].
  rewrite H1, H2, hypot_zero.
  reflexivity.
Qed.

Lemma calculateDistanceToCenter_euclidean_witness :
  DepthProcessor.calculateDistanceToCenter
    {| DepthProcessor.fx_ := of_Z 500; DepthProcessor.fy_ := of_Z 500;
       DepthProcessor.cx_ := of_Z 320; DepthProcessor.cy_ := of_Z 240 |}
    (point 320 240) = zero.
Proof.
  apply (calculateDistanceToCenter_euclidean
           {| DepthProcessor.fx_ := of_Z 500; DepthProcessor.fy_ := of_Z 500;
              DepthProcessor.cx_ := of_Z 320; DepthProcessor.cy_ := of_Z 240 |}
           (point 320 240)); reflexivity.
Defined.

(* ================================================================== *)
(** * std::sort: an ordered rearrangement *)
(* ================================================================== *)

Section SortFacts.
Variable A : Type.

Lemma sort_insert_perm (comp : A -> A -> bool) (a : A) (l : list A) :
  Permutation (sort_insert comp a l) (a :: l).
Proof.
  induction l as [| b l IH]; cbn; [reflexivity |].
  destruct (comp b a); [| reflexivity].
  rewrite IH. apply perm_swap.
Qed.

Lemma std_sort_perm (comp : A -> A -> bool) (l : list A) :
  Permutation (std_sort comp l) l.
Proof.
  induction l as [| a l IH]; cbn; [reflexivity |].
  rewrite sort_insert_perm. now constructor.
Qed.

(** Comparators of the node: [a.key < b.key] on an integer key. *)
Variable key : A -> Z.
Let comp (a b : A) : bool := key a <? key b.
Let le (a b : A) : Prop := key a <= key b.

Lemma sort_insert_sorted (a : A) (l : list A) :
  Sorted le l -> Sorted le (sort_insert comp a l).
Proof.
  induction l as [| b l IH]; cbn; intros Hs.
  - repeat constructor.
  - unfold comp at 1. destruct (Z.ltb_spec (key b) (key a)) as [Hlt | Hge].
    + inversion Hs as [| ? ? Hs' Hhd]; subst.
      constructor; [now apply IH |].
      destruct l as [| c l]; cbn.
      * constructor. unfold le. lia.
      * destruct (comp c a); constructor; unfold le; try lia.
        inversion Hhd; subst. assumption.
    + constructor; [assumption |]. constructor. unfold le. lia.
Qed.

Lemma std_sort_sorted (l : list A) : Sorted le (std_sort comp l).
Proof.
  induction l as [| a l IH]; cbn; [constructor |].
  now apply sort_insert_sorted.
Qed.

End SortFacts.

Lemma sorted_keys_unique (l l' : list Z) :
  StronglySorted Z.le l -> StronglySorted Z.le l' -> Permutation l l' ->
  l = l'.
Proof.
  revert l'. induction l as [| a l IH]; intros l' Hs Hs' Hp.
  - now apply Permutation_nil in Hp.
  - destruct l' as [| a' l'].
    + symmetry in Hp. now apply Permutation_nil in Hp.
    + inversion Hs as [| ? ? Hsl Hall]; subst.
      inversion Hs' as [| ? ? Hsl' Hall']; subst.
      assert (Ha : a = a').
      { assert (H1 : In a (a' :: l')) by (eapply Permutation_in; eauto; now left).
        assert (H2 : In a' (a :: l)).
        { eapply Permutation_in; [symmetry; eassumption | now left]. }
        rewrite Forall_forall in Hall, Hall'.
        destruct H1 as [-> | H1]; [reflexivity |].
        destruct H2 as [-> | H2]; [reflexivity |].
        apply Hall in H2. apply Hall' in H1. lia. }
      subst a'. f_equal. apply IH; try assumption.
      eapply Permutation_cons_inv; eassumption.
Qed.

Lemma sorted_map_keys (A : Type) (key : A -> Z) (l : list A) :
  Sorted (fun a b => key a <= key b) l ->
  StronglySorted Z.le (map key l).
Proof.
  intros Hs. apply Sorted_StronglySorted.
  - intros p q r; apply Z.le_trans.
  - induction Hs as [| a l Hs IH Hhd]; cbn; constructor; [assumption |].
    destruct Hhd; cbn; now constructor.
Qed.

(** Sorting on an integer key fixes the sequence of keys, whatever the
    order of the input. *)
Lemma std_sort_keys_deterministic (A : Type) (key : A -> Z) (l l' : list A) :
  Permutation l l' ->
  map key (std_sort (fun a b => key a <? key b) l)
  = map key (std_sort (fun a b => key a <? key b) l').
Proof.
  intros Hp. apply sorted_keys_unique.
  - apply sorted_map_keys, std_sort_sorted.
  - apply sorted_map_keys, std_sort_sorted.
  - apply Permutation_map.
    rewrite !std_sort_perm. exact Hp.
Qed.

(* ================================================================== *)
(** * publishMarkers *)
(* ================================================================== *)

(** C10.  [publishMarkers] appends the position marker to the marker
    array and publishes the array; the appended marker carries [DELETE]
    exactly when the armors message holds no armor, and [ADD] otherwise. *)
Theorem publishMarkers_action :
  forall (w : World),
    let w' := snd (publishMarkers w) in
    let marker :=
      Marker.set_action (Node.position_marker_ (node w))
        (if empty (armors (Node.armors_msg_ (node w))) then Marker.DELETE
         else Marker.ADD) in
    events_of publishMarkers w
    = [PublishMarkers (Node.marker_array_ (node w) ++ [marker])]
    /\ Node.marker_array_ (node w') = Node.marker_array_ (node w) ++ [marker]
    /\ Node.position_marker_ (node w') = marker
    /\ (Marker.action marker = Marker.DELETE
        <-> armors (Node.armors_msg_ (node w)) = [])
    /\ (Marker.action marker = Marker.ADD
        <-> armors (Node.armors_msg_ (node w)) <> []).
Proof.
  intros w. cbn zeta. unfold events_of, publishMarkers.
  cbn. rewrite skipn_app, skipn_all, Nat.sub_diag. cbn.
  repeat split; try reflexivity;
    destruct (armors (Node.armors_msg_ (node w))); cbn;
    congruence.
Qed.

(* ================================================================== *)
(** * ArmorMatcher: every light in at most one armor *)
(* ================================================================== *)

Section MatcherFacts.
Context {trig : ArmorMatcher.Trig}.
Variable a : ArmorParams.

Import ArmorMatcher.

Lemma consumed_false (used : list nat) (i : nat) :
  consumed used i = false -> ~ In i used.
Proof.
  unfold consumed. intros Hc Hin.
  assert (existsb (Nat.eqb i) used = true) as Ht.
  { apply existsb_exists. exists i. split; [assumption |].
    apply Nat.eqb_refl. }
  congruence.
Qed.

Lemma partner_some (used : list nat) (l1 : Light.t)
      (js : list (nat * Light.t)) (j : nat) (armor : Armor.t) :
  partner a used l1 js = Some (j, armor) ->
  In (j, Armor.right_light armor) js
  /\ ~ In j used
  /\ Armor.left_light armor = l1
  /\ Armor.type armor <> INVALID
  /\ Light.color (Armor.right_light armor) = Light.color l1.
Proof.
  induction js as [| [k l2] js IH]; cbn; [discriminate |].
  destruct (consumed used k) eqn:Hk.
  { intros H. destruct (IH H) as (? & ? & ? & ? & ?). auto 6. }
  destruct (Z.eqb_spec (Light.color l1) (Light.color l2)) as [Hc | Hc].
  2: { intros H. destruct (IH H) as (? & ? & ? & ? & ?). auto 6. }
  destruct (isArmor a l1 l2) eqn:Hty.
  3: { intros H. destruct (IH H) as (? & ? & ? & ? & ?). auto 6. }
  all: intros H; injection H as <- <-; cbn;
    repeat split; auto using consumed_false; discriminate.
Qed.

(** The invariant of the pairing loop: every armor takes two lights of
    the list that were free, the left one before the right one, and
    no position is taken twice. *)
Lemma pairLights_spec (ils : list (nat * Light.t)) :
  StronglySorted Nat.lt (map fst ils) ->
  forall used,
    Forall (fun p =>
              let '(i, j, armor) := p in
              (i < j)%nat
              /\ In (i, Armor.left_light armor) ils
              /\ In (j, Armor.right_light armor) ils
              /\ ~ In i used /\ ~ In j used)
           (pairLights a used ils)
    /\ NoDup (lightsUsed (pairLights a used ils)).
Proof.
  induction ils as [| [i l1] rest IH]; intros Hs used; cbn.
  { split; constructor. }
  cbn in Hs. inversion Hs as [| ? ? Hs' Hlt]; subst.
  assert (Hweaken :
            forall used',
              incl used used' ->
              Forall (fun p =>
                        let '(i0, j, armor) := p in
                        (i0 < j)%nat
                        /\ In (i0, Armor.left_light armor) rest
                        /\ In (j, Armor.right_light armor) rest
                        /\ ~ In i0 used' /\ ~ In j used')
                     (pairLights a used' rest) ->
              Forall (fun p =>
                        let '(i0, j, armor) := p in
                        (i0 < j)%nat
                        /\ In (i0, Armor.left_light armor) ((i, l1) :: rest)
                        /\ In (j, Armor.right_light armor) ((i, l1) :: rest)
                        /\ ~ In i0 used /\ ~ In j used)
                     (pairLights a used' rest)).
  { intros used' Hincl. apply Forall_impl.
    intros [[i0 j] armor] (? & ? & ? & Hi & Hj).
    repeat split; try (now right); auto. }
  destruct (consumed used i) eqn:Hi.
  { destruct (IH Hs' used) as [HF HN].
    split; [apply (Hweaken used); [apply incl_refl | assumption] | assumption]. }
  destruct (partner a used l1 rest) as [[j armor] |] eqn:Hp.
  2: { destruct (IH Hs' used) as [HF HN].
       split; [apply (Hweaken used); [apply incl_refl | assumption]
              | assumption]. }
  destruct (partner_some _ _ _ _ _ Hp) as (Hin & Hfree & Hleft & _ & _).
  destruct (IH Hs' (i :: j :: used)) as [HF HN].
  assert (Hij : (i < j)%nat).
  { rewrite Forall_forall in Hlt. apply Hlt.
    apply in_map_iff. now exists (j, Armor.right_light armor). }
  split.
  - constructor.
    + split; [assumption |].
      split; [left; now rewrite Hleft |].
      split; [now right |].
      split; [now apply consumed_false | assumption].
    + apply (Hweaken (i :: j :: used)); [| assumption].
      intros k Hk. now right; right.
  - cbn. rewrite Forall_forall in HF.
    assert (Hnot : forall k, In k [i; j] ->
                             ~ In k (lightsUsed (pairLights a (i :: j :: used) rest))).
    { intros k Hk Hused. unfold lightsUsed in Hused.
      apply in_flat_map in Hused as ([[i0 j0] armor0] & Hmem & Hk0).
      specialize (HF _ Hmem). cbn in HF, Hk0.
      destruct HF as (_ & _ & _ & Hi0 & Hj0).
      destruct Hk0 as [<- | [<- | []]]; [apply Hi0 | apply Hj0];
        cbn in Hk; cbn; tauto. }
    constructor.
    + intros [Heq | Hin']; [lia |].
      apply (Hnot i); [now left | assumption].
    + constructor; [| assumption].
      apply (Hnot j). right. now left.
Qed.

Lemma seq_sorted (s n : nat) : StronglySorted Nat.lt (seq s n).
Proof.
  revert s. induction n as [| n IH]; intros s; cbn; constructor.
  - apply IH.
  - apply Forall_forall. intros k Hk. apply in_seq in Hk. lia.
Qed.

Lemma indexed_positions (ls : list Light.t) (s : nat) :
  map fst (combine (seq s (List.length ls)) ls) = seq s (List.length ls).
Proof.
  revert s. induction ls as [| l ls IH]; intros s; cbn; [reflexivity |].
  now rewrite IH.
Qed.

Lemma indexed_lookup (ls : list Light.t) (s i : nat) (l : Light.t) :
  In (i, l) (combine (seq s (List.length ls)) ls) ->
  (s <= i)%nat /\ nth_error ls (i - s) = Some l.
Proof.
  revert s. induction ls as [| l0 ls IH]; intros s; cbn; [tauto |].
  intros [Heq | Hin].
  - injection Heq as -> ->. rewrite Nat.sub_diag. now split.
  - apply IH in Hin as [Hle Hnth]. split; [lia |].
    replace (i - s)%nat with (S (i - S s)) by lia. exact Hnth.
Qed.

Lemma lightsUsed_length (ps : list (nat * nat * Armor.t)) :
  List.length (lightsUsed ps) = (2 * List.length ps)%nat.
Proof.
  induction ps as [| p ps IH]; cbn; [reflexivity |].
  unfold lightsUsed in IH. rewrite IH. lia.
Qed.

(** The bound on the number of armors, shared by the theorems on
    [matchLights] and on empty frames. *)
Lemma matchLightsIndexed_spec (lights : list Light.t) :
  let sorted := sortLights lights in
  let found := matchLightsIndexed a lights in
  Forall (fun p =>
            let '(i, j, armor) := p in
            (i < j)%nat
            /\ nth_error sorted i = Some (Armor.left_light armor)
            /\ nth_error sorted j = Some (Armor.right_light armor))
         found
  /\ NoDup (lightsUsed found)
  /\ (List.length found <= List.length lights / 2)%nat.
Proof.
  intros sorted found.
  assert (Hs : StronglySorted Nat.lt (map fst (indexed sorted))).
  { unfold indexed. rewrite indexed_positions. apply seq_sorted. }
  destruct (pairLights_spec (indexed sorted) Hs []) as [HF HN].
  fold (matchLightsIndexed a lights) in HF, HN. fold found in HF, HN.
  assert (HF' :
            Forall (fun p =>
                      let '(i, j, armor) := p in
                      (i < j)%nat
                      /\ nth_error sorted i = Some (Armor.left_light armor)
                      /\ nth_error sorted j = Some (Armor.right_light armor))
                   found).
  { revert HF. apply Forall_impl. intros [[i j] armor] (? & Hi & Hj & _).
    apply indexed_lookup in Hi as [_ Hi], Hj as [_ Hj].
    rewrite Nat.sub_0_r in Hi, Hj. auto. }
  repeat split; try assumption.
  assert (Hlen : (List.length (lightsUsed found) <= List.length sorted)%nat).
  { rewrite <- (length_seq (List.length sorted) 0).
    apply NoDup_incl_length; [assumption |].
    intros k Hk. unfold lightsUsed in Hk.
    apply in_flat_map in Hk as ([[i j] armor] & Hmem & Hk).
    rewrite Forall_forall in HF'. specialize (HF' _ Hmem). cbn in HF', Hk.
    destruct HF' as (_ & Hi & Hj).
    apply in_seq. split; [lia |]. cbn.
    destruct Hk as [<- | [<- | []]];
      apply nth_error_Some; congruence. }
  rewrite lightsUsed_length in Hlen.
  assert (Hperm : List.length sorted = List.length lights).
  { apply Permutation_length. apply std_sort_perm. }
  rewrite Hperm in Hlen.
  apply Nat.div_le_lower_bound; lia.
Qed.

End MatcherFacts.

(** C7.  [matchLights] returns at most [floor (|lights| / 2)] armors, and
    no light is used by two of them: the armors take their left and right
    lights from pairwise different positions of the sorted list of
    lights, which holds the lights of the frame. *)
Theorem matchLights_each_light_once :
  forall (trig : ArmorMatcher.Trig) (a : ArmorParams) (lights : list Light.t),
    let sorted := ArmorMatcher.sortLights lights in
    let found := ArmorMatcher.matchLightsIndexed a lights in
    (List.length (ArmorMatcher.matchLights a lights)
     <= List.length lights / 2)%nat
    /\ ArmorMatcher.matchLights a lights = map snd found
    /\ Permutation sorted lights
    /\ NoDup (ArmorMatcher.lightsUsed found)
    /\ Forall (fun p =>
                 let '(i, j, armor) := p in
                 (i < j)%nat
                 /\ nth_error sorted i = Some (Armor.left_light armor)
                 /\ nth_error sorted j = Some (Armor.right_light armor))
              found.
Proof.
  intros trig a lights sorted found.
  destruct (matchLightsIndexed_spec a lights) as (HF & HN & Hlen).
  repeat split; try assumption.
  - unfold ArmorMatcher.matchLights. now rewrite length_map.
  - apply std_sort_perm.
Qed.

(* ================================================================== *)
(** * detectArmors: one frame, step by step *)
(* ================================================================== *)

Section NodeFacts.
Context {cv : OpenCV} {det : DetectorImpl} {cls : ClassifierImpl}
        {ros : Runtime}.

Lemma skipn_length_app (A : Type) (l r : list A) :
  skipn (List.length l) (l ++ r) = r.
Proof. now rewrite skipn_app, skipn_all, Nat.sub_diag. Qed.

(** Ticks and traces in normal form. *)
Ltac now_normal :=
  rewrite ?length_app; cbn [List.length app];
  rewrite <- ?Nat.add_assoc; cbn [Nat.add];
  rewrite <- ?app_assoc; cbn [app];
  reflexivity.

Lemma bind_run (A B : Type) (c : M A) (k : A -> M B) (w : World) :
  bind c k w = k (fst (c w)) (snd (c w)).
Proof. unfold bind. now destruct (c w). Qed.

Lemma detectStages_run (img : Mat) (w : World) :
  let t := List.length (trace w) in
  let d0 :=
    Detector.set_detect_color
      (Detector.set_min_lightness (Node.detector_ (node w))
         (p_min_lightness (parameters t)))
      (p_detect_color (parameters (t + 1)%nat)) in
  let r1 := preprocessImage d0 img in
  let r2 := findLights (snd r1) img (fst r1) in
  let r3 := matchLights (snd r2) (fst r2) in
  detectStages img w
  = ((fst r1, fst r2, fst r3),
     {| node := Node.set_detector (node w) (snd r3);
        trace :=
          trace w ++ [GetParameter min_lightness; GetParameter detect_color;
                      Call PreprocessImage; Call FindLights;
                      Call MatchLights] |}).
Proof.
  cbn zeta.
  unfold detectStages, call_detector, modify_detector, get_parameter,
    emit, get_node, put_node, bind, ret.
  cbn [fst snd node trace Node.detector_ Node.set_detector].
  rewrite length_app. cbn [List.length].
  destruct (preprocessImage _ img) as [binary_img d1].
  cbn [fst snd node trace Node.detector_ Node.set_detector].
  destruct (findLights d1 img binary_img) as [lights d2].
  cbn [fst snd node trace Node.detector_ Node.set_detector].
  destruct (matchLights d2 lights) as [matched d3].
  cbn [fst snd node trace Node.detector_ Node.set_detector].
  repeat rewrite <- app_assoc. reflexivity.
Qed.

Lemma extractAndClassify_run (img : Mat) (armors : list Armor.t)
      (w : World) :
  let t := List.length (trace w) in
  let r4 := extractNumbers (Node.classifier_ (node w)) img armors in
  let r5 :=
    doClassify
      (NumberClassifier.set_threshold
         (snd r4) (p_classifier_threshold (parameters (t + 1)%nat)))
      (fst r4) in
  extractAndClassify img armors w
  = if empty armors then (armors, w)
    else (fst r5,
          {| node := Node.set_classifier (node w) (snd r5);
             trace :=
               trace w ++ [Call ExtractNumbers;
                           GetParameter classifier_threshold;
                           Call DoClassify] |}).
Proof.
  cbn zeta. unfold extractAndClassify.
  destruct armors as [| armor armors]; [reflexivity |].
  cbn [empty negb].
  unfold call_classifier, modify_classifier, get_parameter,
    emit, get_node, put_node, bind, ret.
  cbn [fst snd node trace Node.classifier_ Node.set_classifier].
  destruct (extractNumbers _ img (armor :: armors)) as [numbered c1].
  cbn [fst snd node trace Node.classifier_ Node.set_classifier].
  rewrite length_app. cbn [List.length].
  destruct (doClassify _ numbered) as [classified c2].
  cbn [fst snd node trace Node.classifier_ Node.set_classifier].
  repeat rewrite <- app_assoc. reflexivity.
Qed.

Lemma map_resizeNumber_nil (armors : list Armor.t) :
  (if empty armors then armors else map resizeNumber armors)
  = map resizeNumber armors.
Proof. now destruct armors. Qed.

Lemma publishDebugInfo_run (img_msg : ImageMsg) (start_time : Z)
      (img binary_img : Mat) (lights : list Light.t)
      (armors : list Armor.t) (w : World) :
  let d := Node.detector_ (node w) in
  publishDebugInfo img_msg start_time img binary_img lights armors w
  = (map resizeNumber armors,
     {| node :=
          Node.set_detector (node w)
            (Detector.set_debug_armors
               (Detector.set_debug_lights d
                  (std_sort (fun l1 l2 => dl_center_x l1 <? dl_center_x l2)
                            (Detector.debug_lights d)))
               (std_sort (fun a1 a2 => da_center_x a1 <? da_center_x a2)
                         (Detector.debug_armors d)));
        trace :=
          trace w
            ++ debugEvents img_msg img binary_img lights armors d
                 (Node.cam_center_ (node w)) start_time
                 (List.length (trace w)) |}).
Proof.
  cbn zeta.
  unfold publishDebugInfo, modify_detector, now, emit, get_node, put_node,
    bind, ret, debugEvents.
  cbn [fst snd node trace Node.detector_ Node.set_detector
       Node.cam_center_ Detector.debug_lights Detector.debug_armors
       Detector.set_debug_lights Detector.set_debug_armors].
  destruct armors as [| armor armors]; cbn [empty negb];
    cbn [fst snd node trace Node.detector_ Node.set_detector
         Node.cam_center_];
    repeat rewrite <- app_assoc; reflexivity.
Qed.

Lemma detectArmors_run (img_msg : ImageMsg) (img : Mat) (w : World) :
  toCvShare img_msg "rgb8" = Some img ->
  let t0 := List.length (trace w) in
  let r1 := preprocessImage (configured w) img in
  let r2 := findLights (snd r1) img (fst r1) in
  let r3 := matchLights (snd r2) (fst r2) in
  let matched := fst r3 in
  let c0 := Node.classifier_ (node w) in
  let r4 := extractNumbers c0 img matched in
  let r5 :=
    doClassify
      (NumberClassifier.set_threshold
         (snd r4) (p_classifier_threshold (parameters (t0 + 7)%nat)))
      (fst r4) in
  let armors := if empty matched then matched else fst r5 in
  let n1 :=
    if empty matched then Node.set_detector (node w) (snd r3)
    else Node.set_classifier (Node.set_detector (node w) (snd r3)) (snd r5) in
  let core :=
    [Now (clock t0); GetParameter min_lightness; GetParameter detect_color;
     Call PreprocessImage; Call FindLights; Call MatchLights]
      ++ (if empty matched then []
          else [Call ExtractNumbers; GetParameter classifier_threshold;
                Call DoClassify]) in
  detectArmors img_msg w
  = if Node.debug_ (node w) then
      (Ok (map resizeNumber armors),
       {| node :=
            Node.set_detector n1
              (Detector.set_debug_armors
                 (Detector.set_debug_lights (snd r3)
                    (std_sort (fun l1 l2 => dl_center_x l1 <? dl_center_x l2)
                              (Detector.debug_lights (snd r3))))
                 (std_sort (fun a1 a2 => da_center_x a1 <? da_center_x a2)
                           (Detector.debug_armors (snd r3))));
          trace :=
            trace w ++ core
              ++ debugEvents img_msg img (fst r1) (fst r2) armors (snd r3)
                   (Node.cam_center_ (node w)) (clock t0)
                   (t0 + (if empty matched then 6 else 9))%nat |})
    else (Ok armors, {| node := n1; trace := trace w ++ core |}).
Proof.
  intros Hcv. cbn zeta.
  unfold detectArmors.
  rewrite bind_run. unfold now at 1 2. cbn [fst snd].
  rewrite Hcv.
  rewrite bind_run, detectStages_run. cbn [fst snd node trace].
  rewrite length_app. cbn [List.length].
  replace (List.length (trace w) + 1 + 1)%nat
    with (List.length (trace w) + 2)%nat by lia.
  fold (configured w).
  destruct (preprocessImage (configured w) img) as [binary_img d1].
  cbn [fst snd].
  destruct (findLights d1 img binary_img) as [lights d2]. cbn [fst snd].
  destruct (matchLights d2 lights) as [matched d3]. cbn [fst snd].
  rewrite bind_run, extractAndClassify_run.
  cbn [fst snd node trace Node.classifier_ Node.set_detector].
  rewrite !length_app. cbn [List.length].
  replace (List.length (trace w) + 1 + 5 + 1)%nat
    with (List.length (trace w) + 7)%nat by lia.
  destruct matched as [| armor matched]; cbn [empty fst snd].
  - rewrite bind_run. unfold get_node at 1 2.
    cbn [fst snd node trace Node.debug_ Node.set_detector].
    destruct (Node.debug_ (node w)).
    + rewrite bind_run, publishDebugInfo_run.
      cbn [fst snd node trace Node.detector_ Node.set_detector
           Node.cam_center_].
      unfold ret. now_normal.
    + unfold ret. now_normal.
  - destruct (extractNumbers _ img (armor :: matched)) as [numbered c1].
    cbn [fst snd].
    destruct (doClassify _ numbered) as [classified c2]. cbn [fst snd].
    rewrite bind_run. unfold get_node at 1 2.
    cbn [fst snd node trace Node.debug_ Node.set_detector
         Node.set_classifier].
    destruct (Node.debug_ (node w)).
    + rewrite bind_run, publishDebugInfo_run.
      cbn [fst snd node trace Node.detector_ Node.set_detector
           Node.set_classifier Node.cam_center_].
      unfold ret. now_normal.
    + unfold ret. now_normal.
Qed.
End NodeFacts.

(* ================================================================== *)
(** * detectArmors: theorems on one frame *)
(* ================================================================== *)

Section Frame.
Context {cv : OpenCV} {det : DetectorImpl} {cls : ClassifierImpl}
        {ros : Runtime}.

Lemma detectArmors_fail (img_msg : ImageMsg) (w : World) :
  toCvShare img_msg "rgb8" = None ->
  detectArmors img_msg w
  = (Err CvBridgeException,
     {| node := node w;
        trace := trace w ++ [Now (clock (List.length (trace w)))] |}).
Proof.
  intros Hcv. unfold detectArmors. rewrite bind_run.
  unfold now at 1 2. cbn [fst snd]. now rewrite Hcv.
Qed.

Lemma events_of_app (A : Type) (c : M A) (w : World) (r : A) (n : Node.t)
      (evs : list Event) :
  c w = (r, {| node := n; trace := trace w ++ evs |}) ->
  events_of c w = evs.
Proof.
  intros H. unfold events_of. rewrite H. cbn [snd trace].
  apply skipn_length_app.
Qed.

Lemma stepsOf_app (l r : list Event) :
  stepsOf (l ++ r) = stepsOf l ++ stepsOf r.
Proof. apply flat_map_app. Qed.

Lemma stagesOf_app (l r : list Event) :
  stagesOf (l ++ r) = stagesOf l ++ stagesOf r.
Proof. apply flat_map_app. Qed.

Lemma debugEvents_steps img_msg img binary_img lights armors d c s t1 :
  stepsOf (debugEvents img_msg img binary_img lights armors d c s t1) = []
  /\ stagesOf (debugEvents img_msg img binary_img lights armors d c s t1)
     = [].
Proof. unfold debugEvents. now destruct armors. Qed.

Lemma lightsPublished_app (l r : list Event) :
  lightsPublished (l ++ r) = lightsPublished l ++ lightsPublished r.
Proof. apply flat_map_app. Qed.

Lemma armorsPublished_app (l r : list Event) :
  armorsPublished (l ++ r) = armorsPublished l ++ armorsPublished r.
Proof. apply flat_map_app. Qed.

Lemma debugEvents_published img_msg img binary_img lights armors d c s t1 :
  lightsPublished
    (debugEvents img_msg img binary_img lights armors d c s t1)
  = [std_sort (fun l1 l2 => dl_center_x l1 <? dl_center_x l2)
              (Detector.debug_lights d)]
  /\ armorsPublished
       (debugEvents img_msg img binary_img lights armors d c s t1)
     = [std_sort (fun a1 a2 => da_center_x a1 <? da_center_x a2)
                 (Detector.debug_armors d)].
Proof. unfold debugEvents. now destruct armors. Qed.

(** The run of a frame, with the results of the stages named. *)
Ltac frame_run Hcv Hpre Hfind Hmatch Hrun :=
  lazymatch type of Hcv with
  | toCvShare ?msg _ = Some ?img =>
      lazymatch type of Hpre with
      | preprocessImage (configured ?w) _ = _ =>
          pose proof (detectArmors_run msg img w Hcv) as Hrun;
          cbn zeta in Hrun;
          rewrite Hpre in Hrun; cbn [fst snd] in Hrun;
          rewrite Hfind in Hrun; cbn [fst snd] in Hrun;
          rewrite Hmatch in Hrun; cbn [fst snd] in Hrun
      end
  end.

Ltac frame_events Hrun :=
  rewrite (events_of_app _ _ _ _ _ _ Hrun);
  rewrite ?stepsOf_app, ?stagesOf_app;
  rewrite ?(proj1 (debugEvents_steps _ _ _ _ _ _ _ _ _));
  rewrite ?(proj2 (debugEvents_steps _ _ _ _ _ _ _ _ _)).

(** C3.  [detectArmors] calls [preprocessImage], [findLights] and
    [matchLights] in this order, each on the result of the one before;
    it calls [extractNumbers] and [doClassify], in this order, exactly
    when the matched list is not empty; and it returns that list of
    armors, as classification left it (number images resized when the
    debug output is on). *)
Theorem detectArmors_stage_order :
  forall (img_msg : ImageMsg) (img : Mat) (w : World)
         (binary_img : Mat) (d1 : Detector.t) (lights : list Light.t)
         (d2 : Detector.t) (matched : list Armor.t) (d3 : Detector.t)
         (numbered : list Armor.t) (c1 : NumberClassifier.t)
         (classified : list Armor.t) (c2 : NumberClassifier.t),
    toCvShare img_msg "rgb8" = Some img ->
    preprocessImage (configured w) img = (binary_img, d1) ->
    findLights d1 img binary_img = (lights, d2) ->
    matchLights d2 lights = (matched, d3) ->
    extractNumbers (Node.classifier_ (node w)) img matched
    = (numbered, c1) ->
    doClassify
      (NumberClassifier.set_threshold c1
         (p_classifier_threshold
            (parameters (List.length (trace w) + 7)%nat)))
      numbered
    = (classified, c2) ->
    let armors := if empty matched then matched else classified in
    stagesOf (events_of (detectArmors img_msg) w)
    = [PreprocessImage; FindLights; MatchLights]
        ++ (if empty matched then [] else [ExtractNumbers; DoClassify])
    /\ fst (detectArmors img_msg w)
       = Ok (if Node.debug_ (node w) then map resizeNumber armors
             else armors).
Proof.
  intros img_msg img w binary_img d1 lights d2 matched d3 numbered c1
         classified c2 Hcv Hpre Hfind Hmatch Hnum Hcls armors.
  frame_run Hcv Hpre Hfind Hmatch Hrun.
  rewrite Hnum in Hrun. cbn [fst snd] in Hrun.
  rewrite Hcls in Hrun. cbn [fst snd] in Hrun.
  fold armors in Hrun.
  split.
  - destruct (Node.debug_ (node w)); frame_events Hrun;
      now destruct matched.
  - rewrite Hrun. now destruct (Node.debug_ (node w)).
Qed.

(** C4.  A frame with no armor, or with no light when [matchLights]
    keeps the bound of at most [|lights| / 2] armors, is an ordinary end
    of the frame: [detectArmors] returns the empty list and not a
    failure, and after the three detection stages it neither calls the
    classifier nor reads its threshold. *)
Theorem detectArmors_no_detection :
  forall (img_msg : ImageMsg) (img : Mat) (w : World)
         (binary_img : Mat) (d1 : Detector.t) (lights : list Light.t)
         (d2 : Detector.t) (matched : list Armor.t) (d3 : Detector.t),
    toCvShare img_msg "rgb8" = Some img ->
    preprocessImage (configured w) img = (binary_img, d1) ->
    findLights d1 img binary_img = (lights, d2) ->
    matchLights d2 lights = (matched, d3) ->
    (matched = []
     \/ (lights = []
         /\ forall d ls,
             (List.length (fst (matchLights d ls))
              <= List.length ls / 2)%nat)) ->
    fst (detectArmors img_msg w) = Ok []
    /\ stepsOf (events_of (detectArmors img_msg) w)
       = [Read min_lightness; Read detect_color; Run PreprocessImage;
          Run FindLights; Run MatchLights].
Proof.
  intros img_msg img w binary_img d1 lights d2 matched d3
         Hcv Hpre Hfind Hmatch Hnone.
  assert (Hempty : matched = []).
  { destruct Hnone as [H | [Hl Hbound]]; [exact H |].
    specialize (Hbound d2 lights). rewrite Hmatch, Hl in Hbound.
    cbn in Hbound. destruct matched; [reflexivity | cbn in Hbound; lia]. }
  subst matched.
  frame_run Hcv Hpre Hfind Hmatch Hrun. cbn [empty] in Hrun.
  split.
  - rewrite Hrun. now destruct (Node.debug_ (node w)).
  - destruct (Node.debug_ (node w)); frame_events Hrun; reflexivity.
Qed.

(** C2, as the code has it.  The three parameters are read one by one,
    each once at most: ["min_lightness"] and ["detect_color"] before the
    first stage, after [t0 + 1] and [t0 + 2] events, and
    ["classifier.threshold"] in the middle of the frame, between
    [extractNumbers] and [doClassify], after [t0 + 7] events, and only
    when there are armors.  The stages work with the values read then;
    they are those of the store at the start of the frame when the
    store does not change during the frame. *)
Theorem detectArmors_parameter_reads :
  forall (img_msg : ImageMsg) (img : Mat) (w : World)
         (binary_img : Mat) (d1 : Detector.t) (lights : list Light.t)
         (d2 : Detector.t) (matched : list Armor.t) (d3 : Detector.t)
         (numbered : list Armor.t) (c1 : NumberClassifier.t),
    toCvShare img_msg "rgb8" = Some img ->
    preprocessImage (configured w) img = (binary_img, d1) ->
    findLights d1 img binary_img = (lights, d2) ->
    matchLights d2 lights = (matched, d3) ->
    extractNumbers (Node.classifier_ (node w)) img matched
    = (numbered, c1) ->
    let t0 := List.length (trace w) in
    let used :=
      NumberClassifier.set_threshold c1
        (p_classifier_threshold (parameters (t0 + 7)%nat)) in
    Detector.min_lightness (configured w)
    = p_min_lightness (parameters (t0 + 1)%nat)
    /\ Detector.detect_color (configured w)
       = p_detect_color (parameters (t0 + 2)%nat)
    /\ stepsOf (events_of (detectArmors img_msg) w)
       = [Read min_lightness; Read detect_color; Run PreprocessImage;
          Run FindLights; Run MatchLights]
           ++ (if empty matched then []
               else [Run ExtractNumbers; Read classifier_threshold;
                     Run DoClassify])
    /\ (matched <> [] ->
        NumberClassifier.threshold used
        = p_classifier_threshold (parameters (t0 + 7)%nat)
        /\ fst (detectArmors img_msg w)
           = Ok (if Node.debug_ (node w)
                 then map resizeNumber (fst (doClassify used numbered))
                 else fst (doClassify used numbered)))
    /\ ((forall k, (k <= 7)%nat -> parameters (t0 + k)%nat = parameters t0) ->
        Detector.min_lightness (configured w)
        = p_min_lightness (parameters t0)
        /\ Detector.detect_color (configured w)
           = p_detect_color (parameters t0)
        /\ NumberClassifier.threshold used
           = p_classifier_threshold (parameters t0)).
Proof.
  intros img_msg img w binary_img d1 lights d2 matched d3 numbered c1
         Hcv Hpre Hfind Hmatch Hnum t0 used.
  frame_run Hcv Hpre Hfind Hmatch Hrun.
  rewrite Hnum in Hrun. cbn [fst snd] in Hrun. fold t0 in Hrun.
  fold used in Hrun.
  split; [reflexivity |]. split; [reflexivity |].
  split; [| split].
  - destruct (Node.debug_ (node w)); frame_events Hrun;
      now destruct matched.
  - intros Hne. split; [reflexivity |].
    destruct matched as [| armor matched]; [congruence |].
    cbn [empty] in Hrun.
    rewrite Hrun. now destruct (Node.debug_ (node w)).
  - intros Hsteady. unfold configured, used. fold t0.
    cbn [Detector.min_lightness Detector.detect_color
         Detector.set_min_lightness Detector.set_detect_color
         NumberClassifier.threshold NumberClassifier.set_threshold].
    now rewrite !Hsteady by lia.
Qed.

(** C8.  With the debug output on, [detectArmors] publishes the debug
    lights and the debug armors once each, as the detector left them
    and rearranged in ascending order of [center_x]; the sequence of
    [center_x] values published does not depend on the order in which
    the detector reported the records. *)
Theorem detectArmors_debug_sorted :
  forall (img_msg : ImageMsg) (img : Mat) (w : World)
         (binary_img : Mat) (d1 : Detector.t) (lights : list Light.t)
         (d2 : Detector.t) (matched : list Armor.t) (d3 : Detector.t),
    toCvShare img_msg "rgb8" = Some img ->
    Node.debug_ (node w) = true ->
    preprocessImage (configured w) img = (binary_img, d1) ->
    findLights d1 img binary_img = (lights, d2) ->
    matchLights d2 lights = (matched, d3) ->
    exists published_lights published_armors,
      lightsPublished (events_of (detectArmors img_msg) w)
      = [published_lights]
      /\ armorsPublished (events_of (detectArmors img_msg) w)
         = [published_armors]
      /\ Sorted by_center_x_lights published_lights
      /\ Permutation published_lights (Detector.debug_lights d3)
      /\ Sorted by_center_x_armors published_armors
      /\ Permutation published_armors (Detector.debug_armors d3)
      /\ (forall reported,
             Permutation reported (Detector.debug_lights d3) ->
             map dl_center_x
                 (std_sort (fun l1 l2 => dl_center_x l1 <? dl_center_x l2)
                           reported)
             = map dl_center_x published_lights)
      /\ (forall reported,
             Permutation reported (Detector.debug_armors d3) ->
             map da_center_x
                 (std_sort (fun a1 a2 => da_center_x a1 <? da_center_x a2)
                           reported)
             = map da_center_x published_armors).
Proof.
  intros img_msg img w binary_img d1 lights d2 matched d3
         Hcv Hdebug Hpre Hfind Hmatch.
  frame_run Hcv Hpre Hfind Hmatch Hrun.
  rewrite Hdebug in Hrun.
  exists (std_sort (fun l1 l2 => dl_center_x l1 <? dl_center_x l2)
                   (Detector.debug_lights d3)).
  exists (std_sort (fun a1 a2 => da_center_x a1 <? da_center_x a2)
                   (Detector.debug_armors d3)).
  rewrite (events_of_app _ _ _ _ _ _ Hrun).
  split; [| split].
  - rewrite !lightsPublished_app.
    rewrite (proj1 (debugEvents_published _ _ _ _ _ _ _ _ _)).
    now destruct matched.
  - rewrite !armorsPublished_app.
    rewrite (proj2 (debugEvents_published _ _ _ _ _ _ _ _ _)).
    now destruct matched.
  - split; [apply (std_sort_sorted _ dl_center_x) |].
    split; [apply std_sort_perm |].
    split; [apply (std_sort_sorted _ da_center_x) |].
    split; [apply std_sort_perm |].
    split; intros reported Hp;
      now apply std_sort_keys_deterministic.
Qed.

Lemma set_number_img_same (armor : Armor.t) (m : Mat) :
  Armor.set_number_img armor m = armor <-> m = Armor.number_img armor.
Proof.
  destruct armor; cbn. split.
  - intros H. now injection H.
  - now intros ->.
Qed.

Lemma map_resizeNumber_same (armors : list Armor.t) :
  map resizeNumber armors = armors
  <-> Forall (fun armor =>
                resize (Armor.number_img armor)
                       {| width := 20; height := 28 |}
                = Armor.number_img armor) armors.
Proof.
  induction armors as [| armor armors IH]; cbn.
  - split; [constructor | reflexivity].
  - split.
    + intros H. injection H as Ha Hrest. constructor.
      * now apply set_number_img_same.
      * now apply IH.
    + intros H. inversion H as [| ? ? Ha Hrest]; subst. f_equal.
      * now apply set_number_img_same.
      * now apply IH.
Qed.

(** X17.  With the debug output on, [detectArmors] runs the same stages,
    reads the same parameters and leaves the same classifier as with it
    off, and it returns the list it returns with it off with every
    number image passed through the resize to 20 x 28 of the debug
    block: the same armors in the same order, and the same list exactly
    when that resize leaves every number image as it is. *)
Theorem detectArmors_debug_resizes_numbers :
  forall (img_msg : ImageMsg) (w : World),
    let off := detectArmors img_msg (with_debug false w) in
    let on := detectArmors img_msg (with_debug true w) in
    fst on = map_result (map resizeNumber) (fst off)
    /\ stepsOf (events_of (detectArmors img_msg) (with_debug true w))
       = stepsOf (events_of (detectArmors img_msg) (with_debug false w))
    /\ Node.classifier_ (node (snd on)) = Node.classifier_ (node (snd off))
    /\ (fst on = fst off
        <-> forall armors,
            fst off = Ok armors ->
            Forall (fun armor =>
                      resize (Armor.number_img armor)
                             {| width := 20; height := 28 |}
                      = Armor.number_img armor) armors).
Proof.
  intros img_msg w. cbn zeta.
  destruct (toCvShare img_msg "rgb8") as [img |] eqn:Hcv.
  2: { rewrite !(detectArmors_fail _ _ Hcv).
       unfold events_of.
       rewrite !(detectArmors_fail _ _ Hcv). cbn.
       repeat split; try reflexivity. intros _ armors H. discriminate H. }
  pose proof (detectArmors_run img_msg img (with_debug true w) Hcv) as Hon.
  pose proof (detectArmors_run img_msg img (with_debug false w) Hcv) as Hoff.
  cbn zeta in Hon, Hoff.
  cbn [with_debug node trace Node.debug_ Node.set_debug Node.classifier_
       Node.cam_center_] in Hon, Hoff.
  change (configured (with_debug true w)) with (configured w) in Hon.
  change (configured (with_debug false w)) with (configured w) in Hoff.
  rewrite (events_of_app _ _ _ _ _ _ Hon), (events_of_app _ _ _ _ _ _ Hoff).
  rewrite Hon, Hoff. cbn [fst snd node map_result].
  rewrite !stepsOf_app, (proj1 (debugEvents_steps _ _ _ _ _ _ _ _ _)).
  rewrite app_nil_r.
  split; [reflexivity |]. split; [reflexivity |]. split.
  - now destruct (empty _).
  - split.
    + intros H armors Hok. injection H as H. injection Hok as <-.
      now apply map_resizeNumber_same.
    + intros H. f_equal. apply map_resizeNumber_same. now apply H.
Qed.

End Frame.

(* ================================================================== *)
(** * The concrete frame: instances *)
(* ================================================================== *)

Import Scenario.

#[local] Existing Instance Scenario.cv.
#[local] Existing Instance Scenario.det.
#[local] Existing Instance Scenario.cls.

Lemma detectArmors_stage_order_witness :
  stagesOf (events_of (detectArmors (ros := steady) (frame [10; 30]))
                      (world0 true))
  = [PreprocessImage; FindLights; MatchLights; ExtractNumbers; DoClassify]
  /\ fst (detectArmors (ros := steady) (frame [10; 30]) (world0 true))
     = Ok (map resizeNumber [armor_10_30 "1"]).
Proof.
  exact (detectArmors_stage_order
           (ros := steady) (frame [10; 30]) (image (frame [10; 30]))
           (world0 true) _ _ _ _ _ _ _ _ _ _
           eq_refl eq_refl eq_refl eq_refl eq_refl eq_refl).
Defined.

Lemma scenario_matchLights_bound :
  forall (d : Detector.t) (ls : list Light.t),
    (List.length (fst (matchLights d ls)) <= List.length ls / 2)%nat.
Proof.
  intros d ls. cbn [matchLights Scenario.det fst]. rewrite length_map.
  apply matchLightsIndexed_spec.
Qed.

Lemma detectArmors_no_detection_witness :
  fst (detectArmors (ros := steady) (frame []) (world0 true)) = Ok []
  /\ stepsOf (events_of (detectArmors (ros := steady) (frame []))
                        (world0 true))
     = [Read min_lightness; Read detect_color; Run PreprocessImage;
        Run FindLights; Run MatchLights].
Proof.
  eapply (detectArmors_no_detection
            (ros := steady) (frame []) (image (frame [])) (world0 true));
    [reflexivity | reflexivity | reflexivity | reflexivity |].
  right. split; [reflexivity | exact scenario_matchLights_bound].
Defined.

Lemma detectArmors_parameter_reads_witness :
  Detector.min_lightness (configured (ros := runtime 4) (world0 false)) = 160
  /\ stepsOf (events_of (detectArmors (ros := runtime 4) (frame [10; 30]))
                        (world0 false))
     = [Read min_lightness; Read detect_color; Run PreprocessImage;
        Run FindLights; Run MatchLights; Run ExtractNumbers;
        Read classifier_threshold; Run DoClassify].
Proof.
  pose proof (detectArmors_parameter_reads
                (ros := runtime 4) (frame [10; 30]) (image (frame [10; 30]))
                (world0 false) _ _ _ _ _ _ _ _
                eq_refl eq_refl eq_refl eq_refl eq_refl) as H.
  cbv zeta in H. destruct H as (Hmin & _ & Hsteps & _).
  split; [exact Hmin | exact Hsteps].
Defined.

Lemma detectArmors_debug_sorted_witness :
  exists published_lights published_armors,
    lightsPublished
      (events_of (detectArmors (ros := steady) (frame [10; 30; 31]))
                 (world0 true))
    = [published_lights]
    /\ armorsPublished
         (events_of (detectArmors (ros := steady) (frame [10; 30; 31]))
                    (world0 true))
       = [published_armors]
    /\ Sorted by_center_x_lights published_lights
    /\ Sorted by_center_x_armors published_armors.
Proof.
  edestruct (detectArmors_debug_sorted
               (ros := steady) (frame [10; 30; 31])
               (image (frame [10; 30; 31])) (world0 true))
    as (pl & pa & HL & HA & HLs & _ & HAs & _);
    [reflexivity | reflexivity | reflexivity | reflexivity | reflexivity |].
  exists pl, pa. repeat split; assumption.
Defined.

(** C2 fails on the code: on the frame with one armor, the threshold is
    read after three stages and [extractNumbers] have run; when the store
    is changed from outside after four events of the frame, the two
    detector parameters come from the store of the start of the frame and
    the threshold handed to [doClassify] from the changed one, and the
    label differs from the label under the store of the start. *)
Lemma detectArmors_reads_threshold_mid_frame :
  readsFirst
    (stepsOf (events_of (detectArmors (ros := runtime 4) (frame [10; 30]))
                        (world0 false)))
  = false
  /\ parameters (Runtime := runtime 4) 0 = params0
  /\ Detector.min_lightness (configured (ros := runtime 4) (world0 false))
     = p_min_lightness params0
  /\ NumberClassifier.threshold
       (Node.classifier_
          (node (snd (detectArmors (ros := runtime 4) (frame [10; 30])
                                   (world0 false)))))
     = p_classifier_threshold params1
  /\ p_classifier_threshold params1 <> p_classifier_threshold params0
  /\ fst (detectArmors (ros := runtime 4) (frame [10; 30]) (world0 false))
     = Ok [armor_10_30 "unknown"]
  /\ fst (detectArmors (ros := steady) (frame [10; 30]) (world0 false))
     = Ok [armor_10_30 "1"].
Proof.
  repeat split; try (vm_compute; reflexivity).
  vm_compute. discriminate.
Qed.

(* ================================================================== *)
(** * detectArmors: failure, telemetry and what a frame leaves alone *)
(* ================================================================== *)

Section FrameEffects.
Context {cv : OpenCV} {det : DetectorImpl} {cls : ClassifierImpl}
        {ros : Runtime}.

Lemma topicsOf_app (l r : list Event) :
  topicsOf (l ++ r) = topicsOf l ++ topicsOf r.
Proof. apply flat_map_app. Qed.

Lemma numbersPublished_app (l r : list Event) :
  numbersPublished (l ++ r) = numbersPublished l ++ numbersPublished r.
Proof. apply flat_map_app. Qed.

Lemma logged_app (l r : list Event) : logged (l ++ r) = logged l ++ logged r.
Proof. apply flat_map_app. Qed.

Lemma empty_map (A B : Type) (f : A -> B) (l : list A) :
  empty (map f l) = empty l.
Proof. now destruct l. Qed.

(** The events before the debug block publish and log nothing. *)
Lemma core_quiet (t : Z) (tail : list Event) :
  (tail = [] \/
   tail = [Call ExtractNumbers; GetParameter classifier_threshold;
           Call DoClassify]) ->
  let core :=
    [Now t; GetParameter min_lightness; GetParameter detect_color;
     Call PreprocessImage; Call FindLights; Call MatchLights] ++ tail in
  topicsOf core = [] /\ numbersPublished core = [] /\ logged core = []
  /\ forall pubs, forallb (publisherThere pubs) core = true.
Proof. intros [-> | ->]; cbn; auto. Qed.

Lemma core_tail (matched : list Armor.t) :
  let tail :=
    if empty matched then []
    else [Call ExtractNumbers; GetParameter classifier_threshold;
          Call DoClassify] in
  tail = [] \/
  tail = [Call ExtractNumbers; GetParameter classifier_threshold;
          Call DoClassify].
Proof. destruct matched; cbn; auto. Qed.

Lemma debugEvents_telemetry img_msg img binary_img lights armors d c s t1 :
  let evs := debugEvents img_msg img binary_img lights armors d c s t1 in
  topicsOf evs
  = [BinaryImgTopic; LightsDataTopic; ArmorsDataTopic]
      ++ (if empty armors then [] else [NumberTopic]) ++ [FinalImgTopic]
  /\ numbersPublished evs
     = (if empty armors then []
        else [vconcat (map Armor.number_img (map resizeNumber armors))])
  /\ logged evs = [latency_ms s (clock t1)].
Proof. unfold debugEvents. now destruct armors. Qed.

(** X1.  When the image message cannot be converted, [detectArmors]
    fails with the exception of cv_bridge after reading the clock and
    before anything else: no parameter is read, no stage runs, nothing is
    published and the node is left as it was. *)
Theorem detectArmors_conversion_failure :
  forall (img_msg : ImageMsg) (w : World),
    toCvShare img_msg "rgb8" = None ->
    fst (detectArmors img_msg w) = Err CvBridgeException
    /\ node (snd (detectArmors img_msg w)) = node w
    /\ events_of (detectArmors img_msg) w
       = [Now (clock (List.length (trace w)))].
Proof.
  intros img_msg w Hcv.
  pose proof (detectArmors_fail img_msg w Hcv) as Hrun.
  rewrite (events_of_app _ _ _ _ _ _ Hrun), Hrun. now cbn.
Qed.

(** X2.  With the debug output off, [detectArmors] publishes nothing and
    logs nothing, and it leaves the detector as [matchLights] left it:
    the debug records are not sorted. *)
Theorem detectArmors_quiet_without_debug :
  forall (img_msg : ImageMsg) (img : Mat) (w : World)
         (binary_img : Mat) (d1 : Detector.t) (lights : list Light.t)
         (d2 : Detector.t) (matched : list Armor.t) (d3 : Detector.t),
    toCvShare img_msg "rgb8" = Some img ->
    Node.debug_ (node w) = false ->
    preprocessImage (configured w) img = (binary_img, d1) ->
    findLights d1 img binary_img = (lights, d2) ->
    matchLights d2 lights = (matched, d3) ->
    topicsOf (events_of (detectArmors img_msg) w) = []
    /\ logged (events_of (detectArmors img_msg) w) = []
    /\ Node.detector_ (node (snd (detectArmors img_msg w))) = d3.
Proof.
  intros img_msg img w binary_img d1 lights d2 matched d3
         Hcv Hdebug Hpre Hfind Hmatch.
  pose proof (detectArmors_run img_msg img w Hcv) as Hrun.
  cbn zeta in Hrun. rewrite Hdebug, Hpre in Hrun. cbn [fst snd] in Hrun.
  rewrite Hfind in Hrun. cbn [fst snd] in Hrun.
  rewrite Hmatch in Hrun. cbn [fst snd] in Hrun.
  rewrite (events_of_app _ _ _ _ _ _ Hrun), Hrun. cbn [snd node].
  destruct (core_quiet (clock (List.length (trace w))) _ (core_tail matched))
    as (Ht & _ & Hl & _).
  split; [exact Ht |]. split; [exact Hl |].
  now destruct matched.
Qed.

(** X3.  With the debug output on, one frame logs one latency and
    publishes, in this order, the binary image, the debug lights, the
    debug armors, the number image and the final image; the number image
    is left out exactly when the returned list of armors is empty, and
    otherwise it is the vertical concatenation of the number images of
    the returned armors. *)
Theorem detectArmors_debug_topics :
  forall (img_msg : ImageMsg) (img : Mat) (w : World),
    toCvShare img_msg "rgb8" = Some img ->
    Node.debug_ (node w) = true ->
    exists returned,
      fst (detectArmors img_msg w) = Ok returned
      /\ topicsOf (events_of (detectArmors img_msg) w)
         = [BinaryImgTopic; LightsDataTopic; ArmorsDataTopic]
             ++ (if empty returned then [] else [NumberTopic])
             ++ [FinalImgTopic]
      /\ numbersPublished (events_of (detectArmors img_msg) w)
         = (if empty returned then []
            else [vconcat (map Armor.number_img returned)])
      /\ List.length (logged (events_of (detectArmors img_msg) w)) = 1%nat.
Proof.
  intros img_msg img w Hcv Hdebug.
  pose proof (detectArmors_run img_msg img w Hcv) as Hrun.
  cbn zeta in Hrun. rewrite Hdebug in Hrun.
  match type of Hrun with
  | _ = (Ok (map resizeNumber ?a), _) => set (armors := a) in *
  end.
  exists (map resizeNumber armors).
  rewrite (events_of_app _ _ _ _ _ _ Hrun), Hrun. cbn [fst].
  rewrite topicsOf_app, numbersPublished_app, logged_app.
  match goal with
  | |- context [topicsOf (?c ++ ?tail)] =>
      destruct (core_quiet (clock (List.length (trace w))) tail
                           (core_tail _)) as (Ht & Hn & Hl & _)
  end.
  cbn zeta in Ht, Hn, Hl. rewrite Ht, Hn, Hl. cbn [app].
  match goal with
  | |- context [topicsOf (debugEvents ?a ?b ?c ?d ?e ?f ?g ?h ?i)] =>
      destruct (debugEvents_telemetry a b c d e f g h i)
        as (Ht' & Hn' & Hl')
  end.
  cbn zeta in Ht', Hn', Hl'. rewrite Ht', Hn', Hl', empty_map.
  repeat split; reflexivity.
Qed.

(** X4.  A frame changes the detector and the classifier only:
    [detectArmors] leaves the debug flag, the armors message, the two
    markers, the marker array and the camera centre of the node as they
    were, and it only adds to the trace. *)
Theorem detectArmors_leaves_alone :
  forall (img_msg : ImageMsg) (w : World),
    let n' := node (snd (detectArmors img_msg w)) in
    Node.debug_ n' = Node.debug_ (node w)
    /\ Node.armors_msg_ n' = Node.armors_msg_ (node w)
    /\ Node.position_marker_ n' = Node.position_marker_ (node w)
    /\ Node.text_marker_ n' = Node.text_marker_ (node w)
    /\ Node.marker_array_ n' = Node.marker_array_ (node w)
    /\ Node.cam_center_ n' = Node.cam_center_ (node w)
    /\ trace (snd (detectArmors img_msg w))
       = trace w ++ events_of (detectArmors img_msg) w.
Proof.
  intros img_msg w. cbn zeta.
  destruct (toCvShare img_msg "rgb8") as [img |] eqn:Hcv.
  - pose proof (detectArmors_run img_msg img w Hcv) as Hrun.
    cbn zeta in Hrun.
    destruct (Node.debug_ (node w)) eqn:Hdebug;
      rewrite (events_of_app _ _ _ _ _ _ Hrun), Hrun; cbn [snd node trace];
      destruct (empty _); cbn; rewrite ?Hdebug; repeat split; reflexivity.
  - pose proof (detectArmors_fail img_msg w Hcv) as Hrun.
    rewrite (events_of_app _ _ _ _ _ _ Hrun), Hrun. cbn.
    repeat split; reflexivity.
Qed.

(** X5.  On a frame without matched armors the classifier is left as it
    was: its threshold is not refreshed from the parameters, whatever
    the store holds. *)
Theorem detectArmors_classifier_untouched :
  forall (img_msg : ImageMsg) (img : Mat) (w : World)
         (binary_img : Mat) (d1 : Detector.t) (lights : list Light.t)
         (d2 : Detector.t) (d3 : Detector.t),
    toCvShare img_msg "rgb8" = Some img ->
    preprocessImage (configured w) img = (binary_img, d1) ->
    findLights d1 img binary_img = (lights, d2) ->
    matchLights d2 lights = ([], d3) ->
    Node.classifier_ (node (snd (detectArmors img_msg w)))
    = Node.classifier_ (node w).
Proof.
  intros img_msg img w binary_img d1 lights d2 d3 Hcv Hpre Hfind Hmatch.
  pose proof (detectArmors_run img_msg img w Hcv) as Hrun.
  cbn zeta in Hrun. rewrite Hpre in Hrun. cbn [fst snd] in Hrun.
  rewrite Hfind in Hrun. cbn [fst snd] in Hrun.
  rewrite Hmatch in Hrun. cbn [fst snd empty] in Hrun.
  rewrite Hrun. now destruct (Node.debug_ (node w)).
Qed.

(** X16.  With the debug output on, the frame sorts the debug records
    inside the detector: the node is left with the detector of
    [matchLights], its debug lights and debug armors rearranged in
    ascending order of [center_x] and its other members as they were. *)
Theorem detectArmors_sorts_in_place :
  forall (img_msg : ImageMsg) (img : Mat) (w : World)
         (binary_img : Mat) (d1 : Detector.t) (lights : list Light.t)
         (d2 : Detector.t) (matched : list Armor.t) (d3 : Detector.t),
    toCvShare img_msg "rgb8" = Some img ->
    Node.debug_ (node w) = true ->
    preprocessImage (configured w) img = (binary_img, d1) ->
    findLights d1 img binary_img = (lights, d2) ->
    matchLights d2 lights = (matched, d3) ->
    let d := Node.detector_ (node (snd (detectArmors img_msg w))) in
    Sorted by_center_x_lights (Detector.debug_lights d)
    /\ Permutation (Detector.debug_lights d) (Detector.debug_lights d3)
    /\ Sorted by_center_x_armors (Detector.debug_armors d)
    /\ Permutation (Detector.debug_armors d) (Detector.debug_armors d3)
    /\ Detector.min_lightness d = Detector.min_lightness d3
    /\ Detector.detect_color d = Detector.detect_color d3
    /\ Detector.l d = Detector.l d3
    /\ Detector.a d = Detector.a d3.
Proof.
  intros img_msg img w binary_img d1 lights d2 matched d3
         Hcv Hdebug Hpre Hfind Hmatch.
  pose proof (detectArmors_run img_msg img w Hcv) as Hrun.
  cbn zeta in Hrun. rewrite Hdebug, Hpre in Hrun. cbn [fst snd] in Hrun.
  rewrite Hfind in Hrun. cbn [fst snd] in Hrun.
  rewrite Hmatch in Hrun. cbn [fst snd] in Hrun.
  cbn zeta. rewrite Hrun. cbn [snd node].
  destruct (empty matched);
    cbn [Node.detector_ Node.set_detector Node.set_classifier
         Detector.debug_lights Detector.debug_armors
         Detector.set_debug_lights Detector.set_debug_armors
         Detector.min_lightness Detector.detect_color Detector.l
         Detector.a];
    (split; [apply (std_sort_sorted _ dl_center_x) |]);
    (split; [apply std_sort_perm |]);
    (split; [apply (std_sort_sorted _ da_center_x) |]);
    (split; [apply std_sort_perm |]);
    repeat split; reflexivity.
Qed.

Lemma allPresent_there (pubs : DebugPublishers) (e : Event) :
  allPresent pubs = true -> publisherThere pubs e = true.
Proof.
  unfold allPresent. intros H.
  repeat (apply andb_true_iff in H as [H ?]).
  now destruct e.
Qed.

(** X6.  When the publishers follow the debug flag (all five exist when
    it is on), every message a frame publishes goes through a publisher
    that exists: the debug block never uses a reset or shut down
    publisher. *)
Theorem detectArmors_publishers_there :
  forall (pubs : DebugPublishers) (img_msg : ImageMsg) (w : World),
    publishersFollow (Node.debug_ (node w)) pubs = true ->
    forallb (publisherThere pubs) (events_of (detectArmors img_msg) w)
    = true.
Proof.
  intros pubs img_msg w Hfollow.
  destruct (toCvShare img_msg "rgb8") as [img |] eqn:Hcv.
  2: { pose proof (detectArmors_fail img_msg w Hcv) as Hrun.
       now rewrite (events_of_app _ _ _ _ _ _ Hrun). }
  pose proof (detectArmors_run img_msg img w Hcv) as Hrun.
  cbn zeta in Hrun.
  destruct (Node.debug_ (node w)) eqn:Hdebug;
    rewrite (events_of_app _ _ _ _ _ _ Hrun).
  - apply forallb_forall. intros e _. now apply allPresent_there.
  - now apply core_quiet, core_tail.
Qed.

End FrameEffects.

(* ================================================================== *)
(** * drawResults *)
(* ================================================================== *)

Section Drawing.
Context {cv : OpenCV}.

Lemma fold_left_drawn (f : Mat -> Armor.t -> Mat)
      (g : Mat -> Light.t * Light.t * string -> Mat) :
  (forall im armor, f im armor = g im (drawn armor)) ->
  forall armors im,
    fold_left f armors im = fold_left g (map drawn armors) im.
Proof.
  intros Hfg armors. induction armors as [| armor armors IH]; intros im.
  - reflexivity.
  - cbn. rewrite Hfg. apply IH.
Qed.

(** X7.  [drawResults] reads of an armor its two lights and its
    classification result only: armors that agree on these give the same
    drawing, so the resize of the number images in the debug block does
    not show in the final image. *)
Theorem drawResults_reads_lights_and_label :
  forall (cam_center : Point2f) (img : Mat) (lights : list Light.t)
         (armors1 armors2 : list Armor.t),
    map drawn armors1 = map drawn armors2 ->
    drawResults cam_center img lights armors1
    = drawResults cam_center img lights armors2.
Proof.
  intros cam_center img lights armors1 armors2 Hsame.
  unfold drawResults.
  rewrite !(fold_left_drawn
              (fun im armor =>
                 line (line im (Light.top (Armor.left_light armor))
                            (Light.bottom (Armor.right_light armor))
                            (0, 255, 0) 2)
                      (Light.bottom (Armor.left_light armor))
                      (Light.top (Armor.right_light armor)) (0, 255, 0) 2)
              (fun im '(l, r, _) =>
                 line (line im (Light.top l) (Light.bottom r) (0, 255, 0) 2)
                      (Light.bottom l) (Light.top r) (0, 255, 0) 2))
    by reflexivity.
  rewrite !(fold_left_drawn
              (fun im armor =>
                 putText im (Armor.classfication_result armor)
                         (Light.top (Armor.left_light armor))
                         (div (of_Z 8) (of_Z 10)) (0, 255, 255) 2)
              (fun im '(l, _, s) =>
                 putText im s (Light.top l) (div (of_Z 8) (of_Z 10))
                         (0, 255, 255) 2))
    by reflexivity.
  now rewrite Hsame.
Qed.

Lemma fold_left_keeps_size (A : Type) (f : Mat -> A -> Mat) :
  (forall im a, mat_size (f im a) = mat_size im) ->
  forall l im, mat_size (fold_left f l im) = mat_size im.
Proof.
  intros Hf l. induction l as [| a l IH]; intros im; cbn.
  - reflexivity.
  - now rewrite IH.
Qed.

(** X8.  When the four OpenCV drawing calls keep the size of the image
    they draw on, so does [drawResults], for any lights and armors. *)
Theorem drawResults_keeps_size :
  (forall m box c t, mat_size (ellipse m box c t) = mat_size m) ->
  (forall m p q c t, mat_size (line m p q c t) = mat_size m) ->
  (forall m s p f c t, mat_size (putText m s p f c t) = mat_size m) ->
  (forall m p r c t, mat_size (circle m p r c t) = mat_size m) ->
  forall (cam_center : Point2f) (img : Mat) (lights : list Light.t)
         (armors : list Armor.t),
    mat_size (drawResults cam_center img lights armors) = mat_size img.
Proof.
  intros Hellipse Hline Htext Hcircle cam_center img lights armors.
  unfold drawResults.
  rewrite Hcircle.
  rewrite fold_left_keeps_size by (intros; apply Htext).
  rewrite fold_left_keeps_size by (intros; now rewrite !Hline).
  rewrite fold_left_keeps_size by (intros; apply Hellipse).
  reflexivity.
Qed.

End Drawing.

(* ================================================================== *)
(** * publishMarkers, call after call *)
(* ================================================================== *)

Lemma publishMarkers_step (w : World) :
  publishMarkers w
  = (tt,
     let marker :=
       Marker.set_action (Node.position_marker_ (node w))
         (if empty (armors (Node.armors_msg_ (node w))) then Marker.DELETE
          else Marker.ADD) in
     {| node :=
          Node.set_marker_array
            (Node.set_position_marker (node w) marker)
            (Node.marker_array_ (node w) ++ [marker]);
        trace :=
          trace w
            ++ [PublishMarkers (Node.marker_array_ (node w) ++ [marker])] |}).
Proof. reflexivity. Qed.

(** X9.  [publishMarkers] never clears the marker array: after [n] calls
    on an unchanged armors message the array holds [n] more markers, all
    with the action the message asks for, the [k]-th call has published
    the old array with [k] markers added, and the armors message, the
    text marker, the detector, the classifier and the debug flag are as
    before. *)
Theorem publishMarkers_accumulates :
  forall (n : nat) (w : World),
    let marker :=
      Marker.set_action (Node.position_marker_ (node w))
        (if empty (armors (Node.armors_msg_ (node w))) then Marker.DELETE
         else Marker.ADD) in
    let w' := publishMarkersTimes n w in
    Node.marker_array_ (node w')
    = Node.marker_array_ (node w) ++ repeat marker n
    /\ trace w'
       = trace w
           ++ map (fun k =>
                     PublishMarkers
                       (Node.marker_array_ (node w) ++ repeat marker (S k)))
                  (seq 0 n)
    /\ Node.armors_msg_ (node w') = Node.armors_msg_ (node w)
    /\ Node.text_marker_ (node w') = Node.text_marker_ (node w)
    /\ Node.detector_ (node w') = Node.detector_ (node w)
    /\ Node.classifier_ (node w') = Node.classifier_ (node w)
    /\ Node.debug_ (node w') = Node.debug_ (node w).
Proof.
  intros n w marker. cbn zeta.
  assert (Hinv :
            forall k,
              let wk := publishMarkersTimes k w in
              Node.marker_array_ (node wk)
              = Node.marker_array_ (node w) ++ repeat marker k
              /\ trace wk
                 = trace w
                     ++ map (fun j =>
                               PublishMarkers
                                 (Node.marker_array_ (node w)
                                    ++ repeat marker (S j)))
                            (seq 0 k)
              /\ Node.armors_msg_ (node wk) = Node.armors_msg_ (node w)
              /\ Node.text_marker_ (node wk) = Node.text_marker_ (node w)
              /\ Node.detector_ (node wk) = Node.detector_ (node w)
              /\ Node.classifier_ (node wk) = Node.classifier_ (node w)
              /\ Node.debug_ (node wk) = Node.debug_ (node w)
              /\ forall a,
                  Marker.set_action (Node.position_marker_ (node wk)) a
                  = Marker.set_action (Node.position_marker_ (node w)) a).
  { induction k as [| k IH]; cbn zeta.
    - cbn. rewrite !app_nil_r. repeat split; reflexivity.
    - cbn zeta in IH.
      destruct IH as (Harr & Htr & Hmsg & Htxt & Hdet & Hcls & Hdbg & Hpm).
      change (publishMarkersTimes (S k) w)
        with (snd (publishMarkers (publishMarkersTimes k w))).
      rewrite publishMarkers_step. cbn [snd node trace].
      cbn [Node.marker_array_ Node.set_marker_array Node.armors_msg_
           Node.set_position_marker Node.detector_ Node.classifier_
           Node.debug_ Node.position_marker_ Node.text_marker_].
      rewrite Hmsg, Hpm. fold marker.
      rewrite Harr, Htr, seq_S, map_app, <- !app_assoc. cbn [map app Nat.add].
      replace (repeat marker k ++ [marker]) with (repeat marker (S k))
        by (cbn; apply repeat_cons).
      repeat split; try assumption; try reflexivity. }
  destruct (Hinv n) as (? & ? & ? & ? & ? & ? & ? & _). auto 7.
Qed.

(* ================================================================== *)
(** * Parameters: declaration, ranges and the constructor *)
(* ================================================================== *)

Section ParameterFacts.
Import Parameters.

Lemma pbind_ok (A B : Type) (c : P A) (k : A -> P B) (s : Store)
      (r : B * Store) :
  pbind c k s = Ok r ->
  exists a s1, c s = Ok (a, s1) /\ k a s1 = Ok r.
Proof.
  unfold pbind. destruct (c s) as [[a s1] | e]; [| discriminate].
  intros H. now exists a, s1.
Qed.

Lemma declared_value_app (n : string) (es : list Entry) (e : Entry) :
  declared_value n (es ++ [e])
  = match declared_value n es with
    | Some v => Some v
    | None => if String.eqb (name e) n then Some (value e) else None
    end.
Proof.
  induction es as [| e0 es IH]; cbn; [reflexivity |].
  now destruct (String.eqb (name e0) n).
Qed.

(** What a successful declaration has done. *)
Lemma declare_parameter_ok (n : string) (default : Value) (d : Descriptor)
      (s s' : Store) (v : Value) :
  declare_parameter n default d s = Ok (v, s') ->
  has_parameter n s = false
  /\ v = match override_of n (overrides s) with
         | Some o => o
         | None => default
         end
  /\ same_type v default = true
  /\ check_value d v = true
  /\ s' = {| overrides := overrides s;
             declared :=
               declared s
                 ++ [{| name := n; value := v; entry_descriptor := d |}] |}.
Proof.
  unfold declare_parameter.
  destruct (has_parameter n s); [discriminate |].
  destruct (same_type _ default) eqn:Hty; [| discriminate]. cbn [negb].
  destruct (check_value d _) eqn:Hck; [| discriminate]. cbn [negb].
  intros H. injection H as <- <-. auto.
Qed.

(** A declared name stays declared, with its value. *)
Lemma declare_parameter_keeps (n m : string) (default : Value)
      (d : Descriptor) (s s' : Store) (v u : Value) :
  declare_parameter n default d s = Ok (v, s') ->
  declared_value m (declared s) = Some u ->
  declared_value m (declared s') = Some u.
Proof.
  intros H Hm. apply declare_parameter_ok in H as (_ & _ & _ & _ & ->).
  cbn. now rewrite declared_value_app, Hm.
Qed.

Lemma declare_parameter_adds (n : string) (default : Value)
      (d : Descriptor) (s s' : Store) (v : Value) :
  declare_parameter n default d s = Ok (v, s') ->
  declared_value n (declared s') = Some v.
Proof.
  intros H.
  apply declare_parameter_ok in H as (Hnew & _ & _ & _ & ->).
  cbn. rewrite declared_value_app. unfold has_parameter in Hnew.
  destruct (declared_value n (declared s)); [discriminate |].
  cbn. now rewrite String.eqb_refl.
Qed.

Lemma declare_int_ok (n : string) (default : Z) (d : Descriptor)
      (s s' : Store) (v : Z) :
  declare_int n default d s = Ok (v, s') ->
  exists i,
    v = to_int i /\ declare_parameter n (PInt default) d s = Ok (PInt i, s').
Proof.
  unfold declare_int.
  destruct (declare_parameter n (PInt default) d s) as [[[b | i | x] s1] | e];
    try discriminate.
  intros H. injection H as <- <-. now exists i.
Qed.

Lemma declare_double_ok (n : string) (default : double)
      (s s' : Store) (v : double) :
  declare_double n default s = Ok (v, s') ->
  declare_parameter n (PDouble default) descriptor s = Ok (PDouble v, s').
Proof.
  unfold declare_double.
  destruct (declare_parameter n (PDouble default) descriptor s)
    as [[[b | i | x] s1] | e]; try discriminate.
  intros H. now injection H as <- <-.
Qed.

Lemma declare_bool_ok (n : string) (default : bool)
      (s s' : Store) (v : bool) :
  declare_bool n default s = Ok (v, s') ->
  declare_parameter n (PBool default) descriptor s = Ok (PBool v, s').
Proof.
  unfold declare_bool.
  destruct (declare_parameter n (PBool default) descriptor s)
    as [[[b | i | x] s1] | e]; try discriminate.
  intros H. now injection H as <- <-.
Qed.

Lemma in_range_bounds (r : IntegerRange) (v : Z) :
  from_value r <= to_value r ->
  in_range r v = true ->
  from_value r <= v <= to_value r.
Proof.
  unfold in_range. intros Hle.
  destruct (Z.eqb_spec v (from_value r)); [lia |].
  destruct (Z.eqb_spec v (to_value r)); [lia |]. cbn [orb].
  destruct (Z.ltb_spec v (from_value r)); [discriminate |].
  destruct (Z.ltb_spec (to_value r) v); [discriminate |]. lia.
Qed.

Lemma to_int_small (v : Z) : - 2 ^ 31 <= v < 2 ^ 31 -> to_int v = v.
Proof.
  intros H. unfold to_int. rewrite Z.mod_small; lia.
Qed.

End ParameterFacts.

Section ConstructorFacts.
Import Parameters.

Lemma declare_double_keeps (n m : string) (default : double)
      (s s' : Store) (v : double) (u : Value) :
  declare_double n default s = Ok (v, s') ->
  declared_value m (declared s) = Some u ->
  declared_value m (declared s') = Some u.
Proof.
  intros H. apply declare_double_ok in H.
  exact (declare_parameter_keeps _ _ _ _ _ _ _ _ H).
Qed.

Lemma declare_bool_keeps (n m : string) (default : bool)
      (s s' : Store) (v : bool) (u : Value) :
  declare_bool n default s = Ok (v, s') ->
  declared_value m (declared s) = Some u ->
  declared_value m (declared s') = Some u.
Proof.
  intros H. apply declare_bool_ok in H.
  exact (declare_parameter_keeps _ _ _ _ _ _ _ _ H).
Qed.

(** One declaration of a sequence that went through. *)
Ltac declared_step H a s E :=
  apply pbind_ok in H as (a & s & E & H).

(** What a successful [initDetector] has declared and built. *)
Lemma initDetector_ok (s s' : Store) (d : Detector.t) :
  initDetector s = Ok (d, s') ->
  exists i1 i2,
    Detector.min_lightness d = to_int i1
    /\ in_range {| from_value := 0; to_value := 255; step := 1 |} i1 = true
    /\ Detector.detect_color d = to_int i2
    /\ in_range {| from_value := 0; to_value := 1; step := 1 |} i2 = true
    /\ declared_value "min_lightness" (declared s') = Some (PInt i1)
    /\ declared_value "detect_color" (declared s') = Some (PInt i2)
    /\ Detector.debug_lights d = []
    /\ Detector.debug_armors d = [].
Proof.
  unfold initDetector. cbv zeta. intros H.
  declared_step H v1 s1 E1. declared_step H v2 s2 E2.
  declared_step H x3 s3 E3. declared_step H x4 s4 E4.
  declared_step H x5 s5 E5. declared_step H x6 s6 E6.
  declared_step H x7 s7 E7. declared_step H x8 s8 E8.
  declared_step H x9 s9 E9. declared_step H x10 s10 E10.
  declared_step H x11 s11 E11.
  unfold pret in H. injection H as <- <-.
  apply declare_int_ok in E1 as (i1 & -> & E1).
  apply declare_int_ok in E2 as (i2 & -> & E2).
  exists i1, i2.
  pose proof (declare_parameter_adds _ _ _ _ _ _ E1) as D1.
  pose proof (declare_parameter_adds _ _ _ _ _ _ E2) as D2.
  pose proof (declare_parameter_keeps _ "min_lightness" _ _ _ _ _ _ E2 D1)
    as D1'.
  apply declare_parameter_ok in E1 as (_ & _ & _ & C1 & _).
  apply declare_parameter_ok in E2 as (_ & _ & _ & C2 & _).
  cbn in C1, C2.
  repeat split; try assumption; try reflexivity.
  - eauto 12 using declare_double_keeps.
  - eauto 12 using declare_double_keeps.
Qed.

(** The two integer parameters stand declared with the values of the
    detector. *)
Lemma initDetector_declared (s s' : Store) (d : Detector.t) :
  initDetector s = Ok (d, s') ->
  declared_value "min_lightness" (declared s')
  = Some (PInt (Detector.min_lightness d))
  /\ declared_value "detect_color" (declared s')
     = Some (PInt (Detector.detect_color d)).
Proof.
  intros H.
  apply initDetector_ok in H
    as (i1 & i2 & H1 & R1 & H2 & R2 & D1 & D2 & _).
  apply in_range_bounds in R1; [| cbn; lia].
  apply in_range_bounds in R2; [| cbn; lia].
  cbn in R1, R2.
  rewrite to_int_small in H1 by lia. rewrite to_int_small in H2 by lia.
  now rewrite H1, H2.
Qed.

(** X10.  A detector built by [initDetector] has a minimum lightness in
    [0, 255] and the colour [RED] or [BLUE], the values under which the
    two parameters stand declared, and no debug records. *)
Theorem initDetector_in_range :
  forall (s s' : Store) (d : Detector.t),
    initDetector s = Ok (d, s') ->
    0 <= Detector.min_lightness d <= 255
    /\ (Detector.detect_color d = RED \/ Detector.detect_color d = BLUE)
    /\ declared_value "min_lightness" (declared s')
       = Some (PInt (Detector.min_lightness d))
    /\ declared_value "detect_color" (declared s')
       = Some (PInt (Detector.detect_color d))
    /\ Detector.debug_lights d = []
    /\ Detector.debug_armors d = [].
Proof.
  intros s s' d H.
  apply initDetector_ok in H
    as (i1 & i2 & H1 & R1 & H2 & R2 & D1 & D2 & L1 & L2).
  apply in_range_bounds in R1; [| cbn; lia].
  apply in_range_bounds in R2; [| cbn; lia].
  cbn in R1, R2.
  rewrite to_int_small in H1 by lia. rewrite to_int_small in H2 by lia.
  rewrite H1, H2. unfold RED, BLUE.
  repeat split; try assumption; lia.
Qed.

(** X11.  An override of ["min_lightness"] outside [0, 255] makes
    [initDetector] throw [InvalidParameterValue], an override that is
    not an integer [InvalidParameterType]; no detector is built. *)
Theorem initDetector_rejects_min_lightness :
  forall (ovs : list (string * Value)) (v : Value),
    override_of "min_lightness" ovs = Some v ->
    match v with PInt i => i < 0 \/ 255 < i | _ => True end ->
    initDetector (launch ovs)
    = Err match v with
          | PInt _ => InvalidParameterValue
          | _ => InvalidParameterType
          end.
Proof.
  intros ovs v Hov Hbad.
  unfold initDetector, pbind, declare_int, declare_parameter. cbv zeta.
  cbn [launch overrides declared has_parameter declared_value].
  rewrite Hov. destruct v as [b | i | x]; try reflexivity.
  assert (Hr : in_range {| from_value := 0; to_value := 255; step := 1 |} i
               = false).
  { unfold in_range. cbn [from_value to_value step].
    destruct (Z.eqb_spec i 0); [lia |].
    destruct (Z.eqb_spec i 255); [lia |]. cbn [orb].
    destruct (Z.ltb_spec i 0); [reflexivity |].
    destruct (Z.ltb_spec 255 i); [reflexivity | lia]. }
  change (in_range {| from_value := 0; to_value := 255; step := 1 |} i)
    with (check_value
            (set_range0 (set_to_value 255)
               (set_range0 (set_from_value 0)
                  (set_range0 (set_step 1)
                     (resize_integer_range descriptor 1))))
            (PInt i)) in Hr.
  cbn [same_type negb]. now rewrite Hr.
Qed.

Lemma pbind_err (A B : Type) (c : P A) (k : A -> P B) (s : Store)
      (e : Error) :
  pbind c k s = Err e ->
  c s = Err e \/ exists a s1, c s = Ok (a, s1) /\ k a s1 = Err e.
Proof.
  unfold pbind. destruct (c s) as [[a s1] | e0].
  - intros H. right. now exists a, s1.
  - intros H. left. now injection H as ->.
Qed.

(** A declaration without a range never fails on the value. *)
Lemma declare_double_not_value (n : string) (default : double) (s : Store) :
  declare_double n default s <> Err InvalidParameterValue.
Proof.
  unfold declare_double, declare_parameter.
  destruct (has_parameter n s); [discriminate |].
  destruct (override_of n (overrides s)) as [[b | i | x] |]; cbn;
    discriminate.
Qed.

Lemma in_range_step_one (r : IntegerRange) (v : Z) :
  step r = 1 -> in_range r v = false -> v < from_value r \/ to_value r < v.
Proof.
  unfold in_range. intros Hstep.
  destruct (Z.eqb_spec v (from_value r)); [discriminate |].
  destruct (Z.eqb_spec v (to_value r)); [discriminate |]. cbn [orb].
  destruct (Z.ltb_spec v (from_value r)); [intros _; now left |].
  destruct (Z.ltb_spec (to_value r) v); [intros _; now right |]. cbn [orb].
  rewrite Hstep, Z.rem_1_r. discriminate.
Qed.

(** A declaration with a range that fails on the value had an integer
    override outside the range, when the default is inside. *)
Lemma declare_int_value (n : string) (default : Z) (r : IntegerRange)
      (desc : string) (s : Store) :
  step r = 1 ->
  in_range r default = true ->
  declare_int n default {| description := desc; integer_range := [r] |} s
  = Err InvalidParameterValue ->
  exists i,
    override_of n (overrides s) = Some (PInt i)
    /\ (i < from_value r \/ to_value r < i).
Proof.
  intros Hstep Hdef. unfold declare_int, declare_parameter.
  destruct (has_parameter n s); [discriminate |].
  destruct (override_of n (overrides s)) as [[b | i | x] |];
    cbn [same_type negb check_value integer_range]; try discriminate.
  - destruct (in_range r i) eqn:Hr; cbn [negb]; [discriminate |].
    intros _. exists i. split; [reflexivity |].
    now apply in_range_step_one.
  - rewrite Hdef. discriminate.
Qed.

Lemma declare_int_overrides (n : string) (default : Z) (d : Descriptor)
      (s s' : Store) (v : Z) :
  declare_int n default d s = Ok (v, s') -> overrides s' = overrides s.
Proof.
  intros H. apply declare_int_ok in H as (i & _ & H).
  now apply declare_parameter_ok in H as (_ & _ & _ & _ & ->).
Qed.

(** X12.  The only values [initDetector] refuses are integers outside
    the ranges of ["min_lightness"] and ["detect_color"]: the nine
    ratio, angle and distance parameters are declared without a range,
    and no double given for them is turned down. *)
Theorem initDetector_value_errors :
  forall (s : Store),
    initDetector s = Err InvalidParameterValue ->
    (exists i,
        override_of "min_lightness" (overrides s) = Some (PInt i)
        /\ (i < 0 \/ 255 < i))
    \/ (exists i,
           override_of "detect_color" (overrides s) = Some (PInt i)
           /\ (i < 0 \/ 1 < i)).
Proof.
  intros s H. unfold initDetector in H. cbv zeta in H.
  apply pbind_err in H as [H | (v1 & s1 & E1 & H)].
  { left.
    exact (declare_int_value
             "min_lightness" 160
             {| from_value := 0; to_value := 255; step := 1 |}
             EmptyString s eq_refl eq_refl H). }
  apply pbind_err in H as [H | (v2 & s2 & E2 & H)].
  { right.
    apply (declare_int_value
             "detect_color" RED
             {| from_value := 0; to_value := 1; step := 1 |}
             "0-RED, 1-BLUE" s1 eq_refl eq_refl) in H.
    now rewrite (declare_int_overrides _ _ _ _ _ _ E1) in H. }
  repeat (apply pbind_err in H as [H | (? & ? & _ & H)];
          [now apply declare_double_not_value in H |]).
  discriminate H.
Qed.

(** X13.  [initDetector] cannot run twice on one node: after a run that
    went through, a second run throws [ParameterAlreadyDeclared]. *)
Theorem initDetector_once :
  forall (s s' : Store) (d : Detector.t),
    initDetector s = Ok (d, s') ->
    initDetector s' = Err ParameterAlreadyDeclared.
Proof.
  intros s s' d H.
  apply initDetector_ok in H as (i1 & _ & _ & _ & _ & _ & D1 & _).
  unfold initDetector, pbind, declare_int, declare_parameter, has_parameter.
  cbv zeta. now rewrite D1.
Qed.

(** What a successful constructor has declared and built. *)
Lemma construct_ok (pkg_path : string) (s s' : Store) (c : Constructed) :
  construct pkg_path s = Ok (c, s') ->
  exists s1 s2 s3 compressed,
    initDetector s = Ok (c_detector c, s1)
    /\ declare_double "classifier.threshold" (decimal 7 1) s1
       = Ok (NumberClassifier.threshold (c_classifier c), s2)
    /\ declare_bool "subscribe_compressed" false s2 = Ok (compressed, s3)
    /\ declare_bool "debug" false s3 = Ok (c_debug c, s')
    /\ c_publishers c
       = (if c_debug c then createDebugPublishers no_publishers
          else no_publishers)
    /\ c_transport c
       = (if compressed then "compressed"%string else "raw"%string).
Proof.
  unfold construct. cbv zeta. intros H.
  declared_step H d0 s1 E1. declared_step H thr s2 E2.
  declared_step H compressed s3 E3. declared_step H debug s4 E4.
  unfold pret in H. injection H as <- <-. cbn.
  now exists s1, s2, s3, compressed.
Qed.

(** X14.  After the constructor, each of the three parameters
    [detectArmors] reads stands declared with the type it is read as,
    and with the value the detector and the classifier were built
    with. *)
Theorem construct_declares_frame_parameters :
  forall (pkg_path : string) (s s' : Store) (c : Constructed),
    construct pkg_path s = Ok (c, s') ->
    (forall p : ParamName,
        exists v,
          declared_value (parameterName p) (declared s') = Some v
          /\ readAs p v = true)
    /\ declared_value "min_lightness" (declared s')
       = Some (PInt (Detector.min_lightness (c_detector c)))
    /\ declared_value "detect_color" (declared s')
       = Some (PInt (Detector.detect_color (c_detector c)))
    /\ declared_value "classifier.threshold" (declared s')
       = Some (PDouble (NumberClassifier.threshold (c_classifier c)))
    /\ declared_value "debug" (declared s') = Some (PBool (c_debug c)).
Proof.
  intros pkg_path s s' c H.
  apply construct_ok in H
    as (s1 & s2 & s3 & compressed & E1 & E2 & E3 & E4 & _ & _).
  apply initDetector_declared in E1 as (D1 & D2).
  assert (Hmin : declared_value "min_lightness" (declared s')
                 = Some (PInt (Detector.min_lightness (c_detector c))))
    by eauto using declare_double_keeps, declare_bool_keeps.
  assert (Hcol : declared_value "detect_color" (declared s')
                 = Some (PInt (Detector.detect_color (c_detector c))))
    by eauto using declare_double_keeps, declare_bool_keeps.
  assert (Hthr : declared_value "classifier.threshold" (declared s')
                 = Some (PDouble
                           (NumberClassifier.threshold (c_classifier c)))).
  { apply declare_double_ok, declare_parameter_adds in E2.
    eauto using declare_bool_keeps. }
  assert (Hdbg : declared_value "debug" (declared s')
                 = Some (PBool (c_debug c))).
  { now apply declare_bool_ok, declare_parameter_adds in E4. }
  repeat split; try assumption.
  intros [| |]; cbn [parameterName]; eexists; split;
    try eassumption; reflexivity.
Qed.

Lemma last_cons (A : Type) (a d : A) (l : list A) :
  last (a :: l) d = last l a.
Proof.
  revert a d. induction l as [| b l IH]; intros a d; [reflexivity |].
  change (last (a :: b :: l) d) with (last (b :: l) d).
  now rewrite !IH.
Qed.

Lemma callbacks_follow (ps : list bool) (st : bool * DebugPublishers) :
  publishersFollow (fst st) (snd st) = true ->
  let st' := fold_left (fun st0 p => debugParameterCallback p st0) ps st in
  publishersFollow (fst st') (snd st') = true
  /\ fst st' = last ps (fst st).
Proof.
  revert st. induction ps as [| p ps IH]; intros st Hst; cbn zeta.
  - now split.
  - cbn [fold_left]. rewrite last_cons.
    apply (IH (debugParameterCallback p st)).
    unfold debugParameterCallback. now destruct p.
Qed.

(** X15.  After the constructor and any sequence of changes of the
    parameter ["debug"], the debug flag is the last value set (the
    declared one when there was no change), and the five debug
    publishers follow it: all exist when it is on, none when it is
    off. *)
Theorem debug_publishers_follow_flag :
  forall (pkg_path : string) (s s' : Store) (c : Constructed)
         (changes : list bool),
    construct pkg_path s = Ok (c, s') ->
    let st :=
      fold_left (fun st0 p => debugParameterCallback p st0) changes
                (c_debug c, c_publishers c) in
    fst st = last changes (c_debug c)
    /\ publishersFollow (fst st) (snd st) = true
    /\ allPresent (snd st) = fst st
    /\ nonePresent (snd st) = negb (fst st).
Proof.
  intros pkg_path s s' c changes H.
  apply construct_ok in H as (_ & _ & _ & _ & _ & _ & _ & _ & Hp & _).
  destruct (callbacks_follow changes (c_debug c, c_publishers c))
    as [Hfollow Hlast].
  { cbn [fst snd]. rewrite Hp. now destruct (c_debug c). }
  cbn zeta in *. cbn [fst] in Hlast.
  split; [exact Hlast |]. split; [exact Hfollow |].
  set (st := fold_left _ changes _) in *.
  unfold publishersFollow in Hfollow.
  destruct (fst st).
  - split; [exact Hfollow |].
    unfold allPresent in Hfollow. unfold nonePresent.
    repeat (apply andb_true_iff in Hfollow as [Hfollow ?]).
    now rewrite Hfollow.
  - split; [| exact Hfollow].
    unfold nonePresent in Hfollow. unfold allPresent.
    repeat (apply andb_true_iff in Hfollow as [Hfollow ?]).
    apply negb_true_iff in Hfollow. now rewrite Hfollow.
Qed.

End ConstructorFacts.

(* ================================================================== *)
(** * The concrete frame and a concrete start: further instances *)
(* ================================================================== *)

Lemma detectArmors_conversion_failure_witness :
  fst (detectArmors (ros := steady) monoFrame (world0 true))
  = Err CvBridgeException
  /\ node (snd (detectArmors (ros := steady) monoFrame (world0 true)))
     = node (world0 true)
  /\ events_of (detectArmors (ros := steady) monoFrame) (world0 true)
     = [Now 0].
Proof.
  exact (detectArmors_conversion_failure
           (ros := steady) monoFrame (world0 true) eq_refl).
Defined.

Lemma detectArmors_quiet_without_debug_witness :
  topicsOf (events_of (detectArmors (ros := steady) (frame [10; 30]))
                      (world0 false))
  = []
  /\ logged (events_of (detectArmors (ros := steady) (frame [10; 30]))
                       (world0 false))
     = [].
Proof.
  edestruct (detectArmors_quiet_without_debug
               (ros := steady) (frame [10; 30]) (image (frame [10; 30]))
               (world0 false))
    as (Ht & Hl & _);
    [reflexivity | reflexivity | reflexivity | reflexivity | reflexivity |].
  split; assumption.
Defined.

Lemma detectArmors_debug_topics_witness :
  exists returned,
    fst (detectArmors (ros := steady) (frame [10; 30]) (world0 true))
    = Ok returned
    /\ topicsOf (events_of (detectArmors (ros := steady) (frame [10; 30]))
                           (world0 true))
       = [BinaryImgTopic; LightsDataTopic; ArmorsDataTopic]
           ++ (if empty returned then [] else [NumberTopic])
           ++ [FinalImgTopic]
    /\ numbersPublished
         (events_of (detectArmors (ros := steady) (frame [10; 30]))
                    (world0 true))
       = (if empty returned then []
          else [vconcat (map Armor.number_img returned)])
    /\ List.length
         (logged (events_of (detectArmors (ros := steady) (frame [10; 30]))
                            (world0 true)))
       = 1%nat.
Proof.
  exact (detectArmors_debug_topics
           (ros := steady) (frame [10; 30]) (image (frame [10; 30]))
           (world0 true) eq_refl eq_refl).
Defined.

Lemma detectArmors_classifier_untouched_witness :
  Node.classifier_
    (node (snd (detectArmors (ros := runtime 4) (frame []) (world0 true))))
  = Node.classifier_ (node (world0 true)).
Proof.
  eapply (detectArmors_classifier_untouched
            (ros := runtime 4) (frame []) (image (frame [])) (world0 true));
    reflexivity.
Defined.

Lemma detectArmors_publishers_there_witness :
  forallb (publisherThere (createDebugPublishers no_publishers))
          (events_of (detectArmors (ros := steady) (frame [10; 30]))
                     (world0 true))
  = true.
Proof.
  apply (detectArmors_publishers_there
           (ros := steady) (createDebugPublishers no_publishers)
           (frame [10; 30]) (world0 true)).
  reflexivity.
Defined.

Lemma drawResults_reads_lights_and_label_witness :
  drawResults (point 20 0) (image (frame [10; 30]))
              [lightAt RED 10; lightAt RED 30]
              [resizeNumber (armor_10_30 "1")]
  = drawResults (point 20 0) (image (frame [10; 30]))
                [lightAt RED 10; lightAt RED 30] [armor_10_30 "1"].
Proof.
  apply drawResults_reads_lights_and_label. reflexivity.
Defined.

Lemma drawResults_keeps_size_witness :
  mat_size (drawResults (point 20 0) (image (frame [10; 30]))
                        [lightAt RED 10; lightAt RED 30] [armor_10_30 "1"])
  = mat_size (image (frame [10; 30])).
Proof.
  apply (drawResults_keeps_size (cv := Scenario.cv)); reflexivity.
Defined.

Lemma initDetector_in_range_witness :
  exists d s',
    initDetector
      (Parameters.launch
         [("min_lightness"%string, Parameters.PInt 200);
          ("detect_color"%string, Parameters.PInt 1)])
    = Ok (d, s')
    /\ 0 <= Detector.min_lightness d <= 255
    /\ (Detector.detect_color d = RED \/ Detector.detect_color d = BLUE).
Proof.
  destruct (initDetector
              (Parameters.launch
                 [("min_lightness"%string, Parameters.PInt 200);
                  ("detect_color"%string, Parameters.PInt 1)]))
    as [[d s'] | e] eqn:E; [| vm_compute in E; discriminate E].
  exists d, s'. split; [reflexivity |].
  destruct (initDetector_in_range _ _ _ E) as (H1 & H2 & _).
  split; assumption.
Defined.

Lemma initDetector_rejects_min_lightness_witness :
  initDetector
    (Parameters.launch [("min_lightness"%string, Parameters.PInt 300)])
  = Err Parameters.InvalidParameterValue.
Proof.
  apply (initDetector_rejects_min_lightness
           [("min_lightness"%string, Parameters.PInt 300)]
           (Parameters.PInt 300)); [reflexivity | right; lia].
Defined.

Lemma initDetector_once_witness :
  exists d s',
    initDetector (Parameters.launch []) = Ok (d, s')
    /\ initDetector s' = Err Parameters.ParameterAlreadyDeclared.
Proof.
  destruct (initDetector (Parameters.launch [])) as [[d s'] | e] eqn:E;
    [| vm_compute in E; discriminate E].
  exists d, s'. split; [reflexivity |].
  exact (initDetector_once _ _ _ E).
Defined.

Lemma construct_declares_frame_parameters_witness :
  exists c s',
    construct "share/armor_detector" (Parameters.launch []) = Ok (c, s')
    /\ Parameters.declared_value "classifier.threshold"
         (Parameters.declared s')
       = Some (Parameters.PDouble
                 (NumberClassifier.threshold (c_classifier c))).
Proof.
  destruct (construct "share/armor_detector" (Parameters.launch []))
    as [[c s'] | e] eqn:E; [| vm_compute in E; discriminate E].
  exists c, s'. split; [reflexivity |].
  destruct (construct_declares_frame_parameters _ _ _ _ E)
    as (_ & _ & _ & H & _).
  exact H.
Defined.

Lemma debug_publishers_follow_flag_witness :
  exists c s',
    construct "share/armor_detector"
              (Parameters.launch [("debug"%string, Parameters.PBool true)])
    = Ok (c, s')
    /\ allPresent
         (snd (fold_left (fun st0 p => debugParameterCallback p st0)
                         [false; true] (c_debug c, c_publishers c)))
       = true.
Proof.
  destruct (construct "share/armor_detector"
                      (Parameters.launch
                         [("debug"%string, Parameters.PBool true)]))
    as [[c s'] | e] eqn:E; [| vm_compute in E; discriminate E].
  exists c, s'. split; [reflexivity |].
  destruct (debug_publishers_follow_flag _ _ _ _ [false; true] E)
    as (Hlast & _ & Hall & _).
  cbn zeta in Hall, Hlast. rewrite Hall, Hlast. reflexivity.
Defined.

Lemma detectArmors_sorts_in_place_witness :
  Sorted by_center_x_lights
         (Detector.debug_lights
            (Node.detector_
               (node (snd (detectArmors (ros := steady) (frame [10; 30; 31])
                                        (world0 true))))))
  /\ Detector.min_lightness
       (Node.detector_
          (node (snd (detectArmors (ros := steady) (frame [10; 30; 31])
                                   (world0 true)))))
     = 160.
Proof.
  edestruct (detectArmors_sorts_in_place
               (ros := steady) (frame [10; 30; 31])
               (image (frame [10; 30; 31])) (world0 true))
    as (Hs & _ & _ & _ & Hmin & _);
    [reflexivity | reflexivity | reflexivity | reflexivity | reflexivity |].
  split; [exact Hs | exact Hmin].
Defined.

Lemma initDetector_value_errors_witness :
  exists i,
    Parameters.override_of
      "detect_color"
      (Parameters.overrides
         (Parameters.launch [("detect_color"%string, Parameters.PInt 2)]))
    = Some (Parameters.PInt i)
    /\ (i < 0 \/ 1 < i).
Proof.
  destruct (initDetector_value_errors
              (Parameters.launch [("detect_color"%string, Parameters.PInt 2)])
              eq_refl) as [(i & Hov & _) | H].
  - discriminate Hov.
  - exact H.
Defined.

(** C8 fails on the code where two records have the same [center_x]:
    the sort compares [center_x] only, and the records of two lights in
    one pixel column are published in the order the detector reported
    them, so the published list changes with the detection order. *)
Lemma debug_reporting_follows_detection_order :
  Permutation [Ties.upper; Ties.lower] [Ties.lower; Ties.upper]
  /\ std_sort (fun l1 l2 => dl_center_x l1 <? dl_center_x l2)
              [Ties.upper; Ties.lower]
     <> std_sort (fun l1 l2 => dl_center_x l1 <? dl_center_x l2)
                 [Ties.lower; Ties.upper]
  /\ lightsPublished
       (events_of
          (detectArmors (det := Ties.reporting [Ties.upper; Ties.lower])
                        (ros := steady) (frame []))
          (world0 true))
     = [[Ties.upper; Ties.lower]]
  /\ lightsPublished
       (events_of
          (detectArmors (det := Ties.reporting [Ties.lower; Ties.upper])
                        (ros := steady) (frame []))
          (world0 true))
     = [[Ties.lower; Ties.upper]]
  /\ lightsPublished
       (events_of
          (detectArmors (det := Ties.reporting [Ties.upper; Ties.lower])
                        (ros := steady) (frame []))
          (world0 true))
     <> lightsPublished
          (events_of
             (detectArmors (det := Ties.reporting [Ties.lower; Ties.upper])
                           (ros := steady) (frame []))
             (world0 true)).
Proof.
  split; [apply perm_swap |].
  split; [vm_compute; discriminate |].
  split; [vm_compute; reflexivity |].
  split; [vm_compute; reflexivity |].
  vm_compute. discriminate.
Qed.
